(** * PDF ingestion pipeline: [src/data_loader.py] and [src/imports.py]

    A shallow embedding of [PDFTextExtractor] and of [validate_jsonl].

    Conventions of the embedding:
    - a Python [str] is the list of its Unicode code points ([pystr]);
    - a [dict] is an association list in insertion order, assignment to an
      existing key keeps the key's position (Python's dict semantics);
    - the PDF backends (pdfplumber, PyPDF2), the directory listing, the
      clock and [str.lower] are external: they are read from a record
      [world], each backend call being fallible ([result]); the JSON
      decoder and the file read are arguments of [validate_jsonl], the
      file system an argument of [save_results] and [main];
    - [print] and the backend calls are recorded, in program order, in a
      trace of [event]s returned next to the value;
    - the exceptions modelled are those of the backends, of the
      decoder and of the file system; [print] is taken to succeed. *)

From Stdlib Require Import ZArith List Bool String Ascii Lia.
From Stdlib Require Import Sorting.Sorted Sorting.Permutation.
Import ListNotations.
Open Scope Z_scope.

(** ** Python strings *)

Definition pystr := list Z.

(** Code points of an ASCII literal of the source. *)
Definition codes (s : string) : pystr :=
  map (fun a => Z.of_N (N_of_ascii a)) (list_ascii_of_string s).
Arguments codes s%_string.

Definition in_range (lo hi c : Z) : bool := (lo <=? c) && (c <=? hi).

(** [Py_UNICODE_ISSPACE]: the code points matched by [\s] in a [str]
    pattern and removed by [str.strip()] / separating [str.split()]. *)
Definition is_space (c : Z) : bool :=
  in_range 0x09 0x0d c || in_range 0x1c 0x1f c || (c =? 0x20) ||
  (c =? 0x85) || (c =? 0xa0) || (c =? 0x1680) || in_range 0x2000 0x200a c ||
  (c =? 0x2028) || (c =? 0x2029) || (c =? 0x202f) || (c =? 0x205f) ||
  (c =? 0x3000).

(** The character class [[\x00-\x08\x0b-\x0c\x0e-\x1f\x7f-\x9f]]. *)
Definition is_ctrl (c : Z) : bool :=
  in_range 0x00 0x08 c || in_range 0x0b 0x0c c || in_range 0x0e 0x1f c ||
  in_range 0x7f 0x9f c.

Definition SP : Z := 0x20.
Definition NL : Z := 0x0a.

Fixpoint lstrip (s : pystr) : pystr :=
  match s with
  | [] => []
  | c :: r => if is_space c then lstrip r else s
  end.

Definition rstrip (s : pystr) : pystr := rev (lstrip (rev s)).

(** [str.strip()] *)
Definition strip (s : pystr) : pystr := rstrip (lstrip s).

(** Truthiness of a string: [not s] is [is_empty s]. *)
Definition is_empty (s : pystr) : bool :=
  match s with [] => true | _ => false end.

(** ** [basic_cleaning] *)

(** [re.sub(r'\s+', ' ', text)]: every maximal run of whitespace is
    replaced by one space.  [in_run] tells that the previous character
    belonged to the run being replaced. *)
Fixpoint sub_ws (in_run : bool) (s : pystr) : pystr :=
  match s with
  | [] => []
  | c :: r =>
      if is_space c
      then if in_run then sub_ws true r else SP :: sub_ws true r
      else c :: sub_ws false r
  end.

(** What a maximal run of [n] newlines becomes under [\n{3,}] -> [\n\n]. *)
Definition flush_nl (n : nat) : pystr :=
  if (3 <=? n)%nat then [NL; NL] else repeat NL n.

(** [re.sub(r'\n{3,}', '\n\n', text)]; [run] counts the newlines of the
    run being read. *)
Fixpoint sub_nl (run : nat) (s : pystr) : pystr :=
  match s with
  | [] => flush_nl run
  | c :: r =>
      if c =? NL then sub_nl (S run) r
      else flush_nl run ++ c :: sub_nl 0 r
  end.

(** [re.sub(r'[\x00-\x08\x0b-\x0c\x0e-\x1f\x7f-\x9f]', '', text)] *)
Definition del_ctrl (s : pystr) : pystr :=
  filter (fun c => negb (is_ctrl c)) s.

Definition basic_cleaning (text : pystr) : pystr :=
  let text := sub_ws false text in
  let text := sub_nl 0 text in
  let text := del_ctrl text in
  strip text.

(** No two adjacent whitespace characters. *)
Fixpoint no_ws_run (s : pystr) : bool :=
  match s with
  | [] => true
  | a :: r =>
      match r with
      | [] => true
      | b :: _ => negb (is_space a && is_space b) && no_ws_run r
      end
  end.

(** The first character, when there is one, is not whitespace. *)
Definition head_not_space (s : pystr) : Prop :=
  match s with [] => True | c :: _ => is_space c = false end.

Definition trimmed (s : pystr) : Prop :=
  head_not_space s /\ head_not_space (rev s).

(** ** More of [str] *)

Fixpoint pystr_eqb (a b : pystr) : bool :=
  match a, b with
  | [], [] => true
  | x :: a', y :: b' => (x =? y) && pystr_eqb a' b'
  | _, _ => false
  end.

(** [a <= b] on strings: lexicographic on code points. *)
Fixpoint pystr_leb (a b : pystr) : bool :=
  match a, b with
  | [], _ => true
  | _ :: _, [] => false
  | x :: a', y :: b' => (x <? y) || ((x =? y) && pystr_leb a' b')
  end.

Fixpoint starts_with (x s : pystr) : bool :=
  match x, s with
  | [], _ => true
  | _ :: _, [] => false
  | a :: x', b :: s' => (a =? b) && starts_with x' s'
  end.

(** [x in s] for strings: [x] occurs in [s] as a substring. *)
Fixpoint contains (x s : pystr) : bool :=
  starts_with x s ||
  match s with
  | [] => false
  | _ :: r => contains x r
  end.

(** [text.split()]: the maximal runs of non-whitespace; [tok] is the
    token being read. *)
Fixpoint split_ws (tok : pystr) (s : pystr) : list pystr :=
  match s with
  | [] => if is_empty tok then [] else [tok]
  | c :: r =>
      if is_space c
      then if is_empty tok then split_ws [] r else tok :: split_ws [] r
      else split_ws (tok ++ [c]) r
  end.

(** [text.split(sep)] for a one-character separator. *)
Fixpoint split_on (sep : Z) (seg : pystr) (s : pystr) : list pystr :=
  match s with
  | [] => [seg]
  | c :: r =>
      if c =? sep then seg :: split_on sep [] r
      else split_on sep (seg ++ [c]) r
  end.

Definition len {A : Type} (l : list A) : Z := Z.of_nat (List.length l).

(** [s.rfind(c)], [None] standing for [-1]. *)
Fixpoint rfind (c : Z) (s : pystr) : option nat :=
  match s with
  | [] => None
  | d :: r =>
      match rfind c r with
      | Some i => Some (S i)
      | None => if d =? c then Some O else None
      end
  end.

(** [PurePath.stem] computed from [PurePath.name]. *)
Definition stem (name : pystr) : pystr :=
  match rfind 0x2e name with
  | Some i =>
      if ((0 <? i) && (i <? List.length name - 1))%nat then firstn i name
      else name
  | None => name
  end.

Definition is_ascii (c : Z) : bool := in_range 0 0x7f c.

Definition ascii_lower (c : Z) : Z :=
  if in_range 0x41 0x5a c then c + 0x20 else c.

Definition ascii_upper (c : Z) : Z :=
  if in_range 0x61 0x7a c then c - 0x20 else c.

(** ** Dictionaries *)

Definition dict (V : Type) : Type := list (pystr * V).

Fixpoint dict_get {V : Type} (k : pystr) (d : dict V) : option V :=
  match d with
  | [] => None
  | (k', v) :: r => if pystr_eqb k k' then Some v else dict_get k r
  end.

(** [d[k] = v] *)
Fixpoint dict_set {V : Type} (k : pystr) (v : V) (d : dict V) : dict V :=
  match d with
  | [] => [(k, v)]
  | (k', v') :: r =>
      if pystr_eqb k k' then (k', v) :: r else (k', v') :: dict_set k v r
  end.

Definition dict_keys {V : Type} (d : dict V) : list pystr := map fst d.
Definition dict_values {V : Type} (d : dict V) : list V := map snd d.

Definition has_key {V : Type} (k : pystr) (d : dict V) : bool :=
  match dict_get k d with Some _ => true | None => false end.

(** The values stored in a metadata mapping.  [VSizeMb b] is the float
    [round(b / (1024 * 1024), 2)], kept symbolic. *)
Inductive value : Type :=
| VInt (z : Z)
| VStr (s : pystr)
| VSizeMb (bytes : Z).

(** ** The external world *)

(** [str(e)] of a caught [Exception]. *)
Definition exn := string.

Inductive result (A : Type) : Type :=
| Ok (a : A)
| Raise (e : exn).
Arguments Ok {A} a.
Arguments Raise {A} e%_string.

(** What [PyPDF2.PdfReader] gives when the file is re-opened for its
    properties: [len(pdf_reader.pages)] and [pdf_reader.metadata]
    ([None] for Python's [None]). *)
Record reader : Type := {
  num_pages : result Z;
  doc_info : result (option (dict pystr))
}.

(** Files are identified by [pdf_path.name]. *)
Record world : Type := {
  (** [list(self.raw_path.glob("*.pdf"))] *)
  glob_pdf : list pystr;
  (** [pdfplumber.open(p).pages] and each [page.extract_text()]
      ([None] when the page has no text) *)
  plumber_pages : pystr -> result (list (result (option pystr)));
  (** [PyPDF2.PdfReader(file).pages] and each [page.extract_text()] *)
  pypdf2_pages : pystr -> result (list (result pystr));
  (** the value of [pdf_path.stat().st_size], for a path whose [stat()]
      returns *)
  st_size : pystr -> Z;
  (** [datetime.now().isoformat()] when the file is processed *)
  now_iso : pystr -> pystr;
  (** the re-opening of the file in [extract_metadata] *)
  open_reader : pystr -> result reader;
  (** [str.lower] *)
  str_lower : pystr -> pystr
}.

(** The lines written by [print]; the payload is what the f-string
    interpolates. *)
Inductive msg : Type :=
| WarnPyPDF2 (name : pystr) (e : exn)
| WarnPdfplumber (name : pystr) (e : exn)
| FallbackToPyPDF2 (name : pystr)
| WarnMetadata (e : exn)
| ErrNoPdfFound
| FilesFound (n : Z)
| Processing (i n : Z) (name : pystr)
| WarnNoText
| WordsExtracted (w : option value)
| PagesAndType (pages stype : option value).

Inductive event : Type :=
| CallPdfplumber (name : pystr)
| CallPyPDF2 (name : pystr)
| OpenForMetadata (name : pystr)
| Print (m : msg).

(** A computation: its value and the events it produced, in order. *)
Definition M (A : Type) : Type := A * list event.

Definition ret {A : Type} (a : A) : M A := (a, []).

Definition bind {A B : Type} (m : M A) (k : A -> M B) : M B :=
  let (a, t) := m in
  let (b, t') := k a in
  (b, t ++ t').

Definition emit (e : event) : M unit := (tt, [e]).
Definition print (m : msg) : M unit := emit (Print m).

Notation "x <- m ;; k" := (bind m (fun x => k))
  (at level 61, m at next level, right associativity).
Notation "m ;;; k" := (bind m (fun _ => k))
  (at level 61, right associativity).

(** ** The two extraction strategies *)

(** The [for page in pdf_reader.pages] loop of [extract_with_pypdf2]:
    the value of the local [text] when the loop is left, and the
    exception that left it, if any. *)
Fixpoint pypdf2_loop (text : pystr) (pages : list (result pystr))
  : pystr * option exn :=
  match pages with
  | [] => (text, None)
  | Raise e :: _ => (text, Some e)
  | Ok page_text :: rest => pypdf2_loop (text ++ page_text ++ [NL]) rest
  end.

(** The [try] body of [extract_with_pypdf2], started with [text = ""]. *)
Definition pypdf2_try (env : world) (pdf_path : pystr) : pystr * option exn :=
  match pypdf2_pages env pdf_path with
  | Raise e => ([], Some e)
  | Ok pages => pypdf2_loop [] pages
  end.

Definition extract_with_pypdf2 (env : world) (pdf_path : pystr) : M pystr :=
  emit (CallPyPDF2 pdf_path) ;;;
  match pypdf2_try env pdf_path with
  | (text, None) => ret text
  | (text, Some e) => print (WarnPyPDF2 pdf_path e) ;;; ret text
  end.

(** The loop of [extract_with_pdfplumber]; [if page_text:] skips [None]
    and the empty string. *)
Fixpoint pdfplumber_loop (text : pystr)
  (pages : list (result (option pystr))) : pystr * option exn :=
  match pages with
  | [] => (text, None)
  | Raise e :: _ => (text, Some e)
  | Ok None :: rest => pdfplumber_loop text rest
  | Ok (Some page_text) :: rest =>
      if is_empty page_text then pdfplumber_loop text rest
      else pdfplumber_loop (text ++ page_text ++ [NL]) rest
  end.

Definition pdfplumber_try (env : world) (pdf_path : pystr)
  : pystr * option exn :=
  match plumber_pages env pdf_path with
  | Raise e => ([], Some e)
  | Ok pages => pdfplumber_loop [] pages
  end.

Definition extract_with_pdfplumber (env : world) (pdf_path : pystr)
  : M pystr :=
  emit (CallPdfplumber pdf_path) ;;;
  match pdfplumber_try env pdf_path with
  | (text, None) => ret text
  | (text, Some e) => print (WarnPdfplumber pdf_path e) ;;; ret text
  end.

(** ** [extract_text] *)

Definition extract_text (env : world) (pdf_path : pystr) (method : pystr)
  : M pystr :=
  text <-
    (if pystr_eqb method (codes "pdfplumber") then
       text <- extract_with_pdfplumber env pdf_path ;;
       if is_empty (strip text) then
         print (FallbackToPyPDF2 pdf_path) ;;;
         extract_with_pypdf2 env pdf_path
       else ret text
     else extract_with_pypdf2 env pdf_path) ;;
  ret (basic_cleaning text).

(** The default of the [method] argument. *)
Definition default_method : pystr := codes "pdfplumber".

(** ** [extract_metadata] *)

Definition consulting_kw : list pystr :=
  [codes "mckinsey"; codes "bain"; codes "bcg"; codes "pwc";
   codes "deloitte"].
Definition academic_kw : list pystr :=
  [codes "mit"; codes "standford"; codes "harvard"].
Definition industry_kw : list pystr :=
  [codes "google"; codes "microsoft"; codes "openai"].
Definition policy_kw : list pystr :=
  [codes "wef"; codes "oecd"; codes "undp"; codes "iti"].

(** [any(x in filename_lower for x in kws)] *)
Definition any_in (kws : list pystr) (filename_lower : pystr) : bool :=
  existsb (fun x => contains x filename_lower) kws.

(** The [if]/[elif] chain that sets [metadata["source_type"]]. *)
Definition detect_source_type (filename_lower : pystr) : pystr :=
  if any_in consulting_kw filename_lower then codes "Consulting"
  else if any_in academic_kw filename_lower then codes "Academic"
  else if any_in industry_kw filename_lower then codes "Industry"
  else if any_in policy_kw filename_lower then codes "Policy"
  else codes "Unknown".

(** [pdf_meta.get(k, '')] *)
Definition get_or_empty (k : pystr) (pdf_meta : dict pystr) : pystr :=
  match dict_get k pdf_meta with Some v => v | None => [] end.

(** The [try] body of [extract_metadata]: the state of [metadata] when
    the body is left, and the exception that left it, if any.  A
    [DocumentInformation] is falsy when it is [None] or has no entry. *)
Definition metadata_try (env : world) (pdf_path : pystr)
  (metadata : dict value) : dict value * option exn :=
  match open_reader env pdf_path with
  | Raise e => (metadata, Some e)
  | Ok pdf_reader =>
      match num_pages pdf_reader with
      | Raise e => (metadata, Some e)
      | Ok n =>
          let metadata := dict_set (codes "page_count") (VInt n) metadata in
          match doc_info pdf_reader with
          | Raise e => (metadata, Some e)
          | Ok None => (metadata, None)
          | Ok (Some []) => (metadata, None)
          | Ok (Some pdf_meta) =>
              let metadata := dict_set (codes "title")
                (VStr (get_or_empty (codes "/Title") pdf_meta)) metadata in
              let metadata := dict_set (codes "author")
                (VStr (get_or_empty (codes "/Author") pdf_meta)) metadata in
              let metadata := dict_set (codes "subject")
                (VStr (get_or_empty (codes "/Subject") pdf_meta)) metadata in
              let metadata := dict_set (codes "creator")
                (VStr (get_or_empty (codes "/Creator") pdf_meta)) metadata in
              (metadata, None)
          end
      end
  end.

(** The dictionary literal that starts [extract_metadata]. *)
Definition text_fields (env : world) (pdf_path text : pystr) : dict value :=
  [ (codes "filename", VStr pdf_path);
    (codes "file_size_mb", VSizeMb (st_size env pdf_path));
    (codes "extraction_date", VStr (now_iso env pdf_path));
    (codes "char_count", VInt (len text));
    (codes "word_count", VInt (len (split_ws [] text)));
    (codes "line_count", VInt (len (split_on NL [] text))) ].

(** [extract_metadata] once [pdf_path.stat()] has returned, which is
    the case for every path [process_all_pdfs] has just listed; the
    call as a whole, [stat()] included, is [extract_metadata_stat]. *)
Definition extract_metadata (env : world) (pdf_path text : pystr)
  : M (dict value) :=
  let metadata := text_fields env pdf_path text in
  emit (OpenForMetadata pdf_path) ;;;
  metadata <-
    (match metadata_try env pdf_path metadata with
     | (metadata, None) => ret metadata
     | (metadata, Some e) =>
         print (WarnMetadata e) ;;;
         ret (dict_set (codes "page_count") (VInt 0) metadata)
     end) ;;
  let filename_lower := str_lower env pdf_path in
  ret (dict_set (codes "source_type")
         (VStr (detect_source_type filename_lower)) metadata).

(** The world in which [pdf_path.stat().st_size] has returned [size]. *)
Definition with_size (env : world) (size : Z) : world :=
  {| glob_pdf := glob_pdf env;
     plumber_pages := plumber_pages env;
     pypdf2_pages := pypdf2_pages env;
     st_size := fun _ => size;
     now_iso := now_iso env;
     open_reader := open_reader env;
     str_lower := str_lower env |}.

(** [extract_metadata] from its first line, for any path.  [stat] is the
    outcome of [pdf_path.stat().st_size].  The call sits in the
    dictionary literal, before the [try]: when it raises (the file is
    missing) the exception leaves the function, nothing being printed;
    when it returns, the function goes on with that size. *)
Definition extract_metadata_stat (stat : pystr -> result Z) (env : world)
  (pdf_path text : pystr) : result (dict value) * list event :=
  match stat pdf_path with
  | Raise e => (Raise e, [])
  | Ok size =>
      let run := extract_metadata (with_size env size) pdf_path text in
      (Ok (fst run), snd run)
  end.

(** ** [process_all_pdfs] *)

(** The body of [for i, pdf_path in enumerate(pdf_files, 1)], from the
    [i]-th file on, [total] being [len(pdf_files)]. *)
Fixpoint process_loop (env : world) (total i : Z) (pdf_files : list pystr)
  (texts : dict pystr) (metadata_dict : dict (dict value))
  : M (dict pystr * dict (dict value)) :=
  match pdf_files with
  | [] => ret (texts, metadata_dict)
  | pdf_path :: rest =>
      print (Processing i total pdf_path) ;;;
      text <- extract_text env pdf_path default_method ;;
      if is_empty (strip text) then
        print WarnNoText ;;;
        process_loop env total (i + 1) rest texts metadata_dict
      else
        let doc_id := stem pdf_path in
        metadata <- extract_metadata env pdf_path text ;;
        let texts := dict_set doc_id text texts in
        let metadata_dict := dict_set doc_id metadata metadata_dict in
        print (WordsExtracted (dict_get (codes "word_count") metadata)) ;;;
        print (PagesAndType (dict_get (codes "page_count") metadata)
                 (dict_get (codes "source_type") metadata)) ;;;
        process_loop env total (i + 1) rest texts metadata_dict
  end.

Definition process_all_pdfs (env : world)
  : M (dict pystr * dict (dict value)) :=
  let pdf_files := glob_pdf env in
  match pdf_files with
  | [] => print ErrNoPdfFound ;;; ret ([], [])
  | _ :: _ =>
      print (FilesFound (len pdf_files)) ;;;
      process_loop env (len pdf_files) 1 pdf_files [] []
  end.

(** ** [generate_extraction_report] *)

(** [sum(meta[k] for meta in metadata_dict.values())] over integer
    counts, started at [acc]; [None] when a [meta[k]] is missing or is
    not an integer. *)
Fixpoint sum_key (k : pystr) (metas : list (dict value)) (acc : Z)
  : option Z :=
  match metas with
  | [] => Some acc
  | meta :: rest =>
      match dict_get k meta with
      | Some (VInt z) => sum_key k rest (acc + z)
      | _ => None
      end
  end.

(** [source_types.get(stype, 0)] *)
Definition get_or_zero (stype : pystr) (source_types : dict Z) : Z :=
  match dict_get stype source_types with Some n => n | None => 0 end.

(** The loop that fills [source_types]. *)
Fixpoint count_source_types (metas : list (dict value))
  (source_types : dict Z) : option (dict Z) :=
  match metas with
  | [] => Some source_types
  | meta :: rest =>
      match dict_get (codes "source_type") meta with
      | Some (VStr stype) =>
          count_source_types rest
            (dict_set stype (get_or_zero stype source_types + 1)
               source_types)
      | _ => None
      end
  end.

(** Order of the tuples [(stype, count)]. *)
Definition item_leb (x y : pystr * Z) : bool :=
  if pystr_eqb (fst x) (fst y) then snd x <=? snd y
  else pystr_leb (fst x) (fst y).

Fixpoint insert_item (x : pystr * Z) (l : list (pystr * Z))
  : list (pystr * Z) :=
  match l with
  | [] => [x]
  | y :: r => if item_leb x y then x :: l else y :: insert_item x r
  end.

(** [sorted(source_types.items())], as a stable insertion sort. *)
Definition sorted_items (l : list (pystr * Z)) : list (pystr * Z) :=
  fold_right insert_item [] l.

(** One entry of the document details: filename, words, pages, type. *)
Definition detail : Type := (value * Z * Z * pystr)%type.

Fixpoint document_details (items : dict (dict value))
  : option (list detail) :=
  match items with
  | [] => Some []
  | (doc_id, meta) :: rest =>
      match dict_get (codes "filename") meta,
            dict_get (codes "word_count") meta,
            dict_get (codes "page_count") meta,
            dict_get (codes "source_type") meta,
            document_details rest with
      | Some f, Some (VInt w), Some (VInt p), Some (VStr t), Some ds =>
          Some ((f, w, p, t) :: ds)
      | _, _, _, _, _ => None
      end
  end.

(** The figures of the report, in the order the text lays them out; the
    banners and column widths of the f-strings are left out. *)
Record report : Type := {
  r_total_docs : Z;
  r_total_words : Z;
  r_total_pages : Z;
  r_average_words : Z;
  r_distribution : list (pystr * Z);
  r_details : list detail
}.

(** The report of mappings whose entries have the types
    [extract_metadata] gives them: integer counts, a string for the
    source type.  [None] when the Python function raises because an
    entry lacks one of the keys read or holds a string where a count is
    summed.  On an entry whose count is a float, which no run of
    [process_all_pdfs] builds, the model also answers [None], whereas
    Python sums the float: such entries are outside the model. *)
Definition generate_extraction_report (texts : dict pystr)
  (metadata_dict : dict (dict value)) : option report :=
  let total_docs := len texts in
  match sum_key (codes "word_count") (dict_values metadata_dict) 0 with
  | None => None
  | Some total_words =>
      match sum_key (codes "page_count") (dict_values metadata_dict) 0 with
      | None => None
      | Some total_pages =>
          match count_source_types (dict_values metadata_dict) [] with
          | None => None
          | Some source_types =>
              match document_details metadata_dict with
              | None => None
              | Some details =>
                  Some {| r_total_docs := total_docs;
                          r_total_words := total_words;
                          r_total_pages := total_pages;
                          r_average_words :=
                            if total_docs >? 0
                            then total_words / total_docs else 0;
                          r_distribution := sorted_items source_types;
                          r_details := details |}
              end
          end
      end
  end.

(** ** [validate_jsonl] *)

(** What [validate_jsonl] does that can be observed: the calls of
    [json.loads] and the lines printed. *)
Inductive jsonl_event : Type :=
| Loads (i : Z) (line : pystr)
| PrintErrorLine (i : Z) (e : exn)
| PrintNoProblem.

(** The outcome of [json.loads(line)]: it returns, it raises
    [json.JSONDecodeError], or it raises an exception of another class
    ([RecursionError] on deep nesting, [ValueError] on an integer of
    more than 4300 digits), which the [except] clause does not catch. *)
Inductive decoded : Type :=
| Decoded
| DecodeError (e : exn)
| OtherError (e : exn).
Arguments DecodeError e%_string.
Arguments OtherError e%_string.

(** The loop [for i, line in enumerate(f, 1)], from line number [i] on.
    Each step of the iteration over the file yields a line or raises
    ([UnicodeDecodeError] when the bytes are not UTF-8).  The function
    returns ([Ok tt]) after either print; an exception other than
    [JSONDecodeError] leaves it with nothing printed. *)
Fixpoint validate_loop (json_loads : pystr -> decoded) (i : Z)
  (lines : list (result pystr)) : result unit * list jsonl_event :=
  match lines with
  | [] => (Ok tt, [PrintNoProblem])
  | Raise e :: _ => (Raise e, [])
  | Ok line :: rest =>
      match json_loads line with
      | Decoded =>
          let r := validate_loop json_loads (i + 1) rest in
          (fst r, Loads i line :: snd r)
      | DecodeError e => (Ok tt, [Loads i line; PrintErrorLine i e])
      | OtherError e => (Raise e, [Loads i line])
      end
  end.

(** [file] is the outcome of [open(jsonl_path, 'r', encoding='utf-8')]:
    an exception, or the file's lines as the iteration yields them. *)
Definition validate_jsonl (json_loads : pystr -> decoded)
  (file : result (list (result pystr))) : result unit * list jsonl_event :=
  match file with
  | Raise e => (Raise e, [])
  | Ok lines => validate_loop json_loads 1 lines
  end.

(** ** Vocabulary of the statements *)

(** Empty or whitespace-only: [not text.strip()]. *)
Definition blank (s : pystr) : bool := is_empty (strip s).

Definition is_call_pdfplumber (e : event) : bool :=
  match e with CallPdfplumber _ => true | _ => false end.

Definition is_call_pypdf2 (e : event) : bool :=
  match e with CallPyPDF2 _ => true | _ => false end.

Definition count_events (f : event -> bool) (t : list event) : nat :=
  List.length (filter f t).

(** The texts of the pages read before the first failure, and that
    failure. *)
Fixpoint pages_before_failure {A : Type} (pages : list (result A))
  : list A :=
  match pages with
  | Ok a :: rest => a :: pages_before_failure rest
  | _ => []
  end.

Fixpoint first_failure {A : Type} (pages : list (result A)) : option exn :=
  match pages with
  | [] => None
  | Raise e :: _ => Some e
  | Ok _ :: rest => first_failure rest
  end.

(** Each page text followed by a newline. *)
Definition join_pages (texts : list pystr) : pystr :=
  List.concat (map (fun t => t ++ [NL]) texts).

(** The page texts pdfplumber keeps: neither [None] nor empty. *)
Fixpoint kept_pages (texts : list (option pystr)) : list pystr :=
  match texts with
  | [] => []
  | Some t :: rest => if is_empty t then kept_pages rest
                      else t :: kept_pages rest
  | None :: rest => kept_pages rest
  end.

(** The line printed by the [except] clause, if the [try] body failed. *)
Definition warning (w : exn -> msg) (failure : option exn) : list event :=
  match failure with
  | Some e => [Print (w e)]
  | None => []
  end.

(** The file [p] contributes an entry under the key [k]. *)
Definition contributes (env : world) (k p : pystr) : Prop :=
  stem p = k /\ blank (fst (extract_text env p default_method)) = false.

(** The classification rules as a table, in priority order. *)
Definition source_rules : list (list pystr * pystr) :=
  [ (consulting_kw, codes "Consulting");
    (academic_kw, codes "Academic");
    (industry_kw, codes "Industry");
    (policy_kw, codes "Policy") ].

(** The label of the first rule one of whose keywords occurs in [s]. *)
Fixpoint first_match (rules : list (list pystr * pystr)) (s : pystr)
  : pystr :=
  match rules with
  | [] => codes "Unknown"
  | (kws, label) :: rest =>
      if any_in kws s then label else first_match rest s
  end.

(** [x] occurs in [s] as a substring. *)
Definition substring (x s : pystr) : Prop :=
  exists a b, s = a ++ x ++ b.

Definition matches (kws : list pystr) (s : pystr) : Prop :=
  exists x, In x kws /\ substring x s.

(** The exception that leaves the [try] body of [extract_metadata], if
    any: raised by the re-opening, by the page count or by the read of
    the document information. *)
Definition metadata_failure (env : world) (pdf_path : pystr) : option exn :=
  match open_reader env pdf_path with
  | Raise e => Some e
  | Ok pdf_reader =>
      match num_pages pdf_reader with
      | Raise e => Some e
      | Ok _ =>
          match doc_info pdf_reader with
          | Raise e => Some e
          | Ok _ => None
          end
      end
  end.

(** [str.lower] agrees with the ASCII table on ASCII strings. *)
Definition lower_on_ascii (env : world) : Prop :=
  forall s, forallb is_ascii s = true ->
            str_lower env s = map ascii_lower s.

Definition int_field (k : pystr) (meta : dict value) : Z :=
  match dict_get k meta with Some (VInt z) => z | _ => 0 end.

Definition sum_Z (l : list Z) : Z := fold_right Z.add 0 l.

Definition has_type (t : pystr) (meta : dict value) : bool :=
  match dict_get (codes "source_type") meta with
  | Some (VStr s) => pystr_eqb s t
  | _ => false
  end.

(** Number of entries classified [t]. *)
Definition count_type (t : pystr) (metas : list (dict value)) : Z :=
  len (filter (has_type t) metas).

(** The entry has the keys the report reads, with the types
    [extract_metadata] gives them. *)
Definition report_ready (meta : dict value) : bool :=
  match dict_get (codes "filename") meta,
        dict_get (codes "word_count") meta,
        dict_get (codes "page_count") meta,
        dict_get (codes "source_type") meta with
  | Some _, Some (VInt _), Some (VInt _), Some (VStr _) => true
  | _, _, _, _ => false
  end.

(** [Loads i l1; Loads (i+1) l2; ...] *)
Fixpoint numbered_loads (i : Z) (lines : list pystr) : list jsonl_event :=
  match lines with
  | [] => []
  | line :: rest => Loads i line :: numbered_loads (i + 1) rest
  end.

Definition is_no_problem (e : jsonl_event) : bool :=
  match e with PrintNoProblem => true | _ => false end.

Definition is_error_line (e : jsonl_event) : bool :=
  match e with PrintErrorLine _ _ => true | _ => false end.

(** ** Sample worlds *)

Definition sample_reader : reader :=
  {| num_pages := Ok 2;
     doc_info := Ok (Some [(codes "/Title", codes "Agentic AI")]) |}.

(** Three files: one with a text layer, one that both backends read as
    empty, one that only PyPDF2 reads and whose second page fails. *)
Definition sample_world : world :=
  {| glob_pdf := [codes "deloitte_wef_report.pdf"; codes "empty.pdf";
                  codes "scan.pdf"];
     plumber_pages := fun p =>
       if pystr_eqb p (codes "deloitte_wef_report.pdf")
       then Ok [Ok (Some (codes "Agentic  AI")); Ok None]
       else if pystr_eqb p (codes "scan.pdf") then Raise "no text layer"
       else Ok [];
     pypdf2_pages := fun p =>
       if pystr_eqb p (codes "scan.pdf")
       then Ok [Ok (codes "page one"); Raise "bad xref"; Ok (codes "lost")]
       else Ok [];
     st_size := fun _ => 2097152;
     now_iso := fun _ => codes "2024-05-01T10:00:00";
     open_reader := fun p =>
       if pystr_eqb p (codes "deloitte_wef_report.pdf")
       then Ok sample_reader else Raise "file is locked";
     str_lower := map ascii_lower |}.

(** The same directory without any PDF. *)
Definition empty_world : world :=
  {| glob_pdf := [];
     plumber_pages := plumber_pages sample_world;
     pypdf2_pages := pypdf2_pages sample_world;
     st_size := st_size sample_world;
     now_iso := now_iso sample_world;
     open_reader := open_reader sample_world;
     str_lower := str_lower sample_world |}.

Definition is_digit (c : Z) : bool := in_range 0x30 0x39 c.

(** A decoder for the samples: a line that starts with [[] decodes; so
    does a line of digits, unless it has more than 4300 of them, on
    which [json.loads] raises [ValueError]; any other line raises
    [JSONDecodeError]. *)
Definition sample_loads (line : pystr) : decoded :=
  if starts_with [0x5b] line then Decoded
  else if negb (is_empty line) && forallb is_digit line then
    if 4300 <? len line
    then OtherError "Exceeds the limit (4300 digits) for integer string conversion"
    else Decoded
  else DecodeError "Expecting value".

Definition sample_metas : dict (dict value) :=
  [ (codes "a", [ (codes "filename", VStr (codes "a.pdf"));
                  (codes "word_count", VInt 100);
                  (codes "page_count", VInt 3);
                  (codes "source_type", VStr (codes "Policy")) ]);
    (codes "b", [ (codes "filename", VStr (codes "b.pdf"));
                  (codes "word_count", VInt 200);
                  (codes "page_count", VInt 4);
                  (codes "source_type", VStr (codes "Academic")) ]);
    (codes "c", [ (codes "filename", VStr (codes "c.pdf"));
                  (codes "word_count", VInt 300);
                  (codes "page_count", VInt 5);
                  (codes "source_type", VStr (codes "Policy")) ]) ].

Definition sample_texts : dict pystr :=
  [ (codes "a", codes "x"); (codes "b", codes "y"); (codes "c", codes "z") ].

(** ** [__init__], [save_results] and [main] *)
















(** ** More vocabulary *)

Definition is_open_for_metadata (e : event) : bool :=
  match e with OpenForMetadata _ => true | _ => false end.

(** The file a backend event is about, by kind of event. *)
Definition pdfplumber_call (e : event) : option pystr :=
  match e with CallPdfplumber name => Some name | _ => None end.

Definition pypdf2_call (e : event) : option pystr :=
  match e with CallPyPDF2 name => Some name | _ => None end.

Definition metadata_open (e : event) : option pystr :=
  match e with OpenForMetadata name => Some name | _ => None end.

(** The files of the events of one kind, in the order of the trace. *)
Fixpoint names_of (kind : event -> option pystr) (t : list event)
  : list pystr :=
  match t with
  | [] => []
  | e :: rest =>
      match kind e with
      | Some name => name :: names_of kind rest
      | None => names_of kind rest
      end
  end.

(** The listed file gets an entry: its extracted text is not blank. *)
Definition stored (env : world) (p : pystr) : bool :=
  negb (blank (fst (extract_text env p default_method))).



(** The detail line of one metadata entry. *)
Definition detail_of (meta : dict value) : option detail :=
  match dict_get (codes "filename") meta,
        dict_get (codes "word_count") meta,
        dict_get (codes "page_count") meta,
        dict_get (codes "source_type") meta with
  | Some f, Some (VInt w), Some (VInt p), Some (VStr t) => Some (f, w, p, t)
  | _, _, _, _ => None
  end.

Definition is_print (e : jsonl_event) : bool :=
  match e with Loads _ _ => false | _ => true end.

(** A directory whose two files have the same stem: [.pdf] is its own
    stem, and it is the stem of [.pdf.pdf] too. *)
Definition hidden_world : world :=
  {| glob_pdf := [codes ".pdf"; codes ".pdf.pdf"];
     plumber_pages := fun p =>
       if pystr_eqb p (codes ".pdf") then Ok [Ok (Some (codes "first"))]
       else Ok [Ok (Some (codes "second"))];
     pypdf2_pages := fun _ => Ok [];
     st_size := fun _ => 1024;
     now_iso := fun _ => codes "2024-05-01T10:00:00";
     open_reader := fun _ => Raise "file is locked";
     str_lower := map ascii_lower |}.

(** * Properties *)

(** ** Strings *)

Lemma pystr_eqb_eq (a b : pystr) : pystr_eqb a b = true <-> a = b.
Proof.
  revert b; induction a as [|x a IH]; intros [|y b]; simpl;
    try (split; [discriminate | congruence]); try tauto.
  rewrite andb_true_iff, Z.eqb_eq, IH.
  split; [intros [-> ->]; reflexivity | intros H; inversion H; auto].
Qed.

Lemma pystr_eqb_refl (a : pystr) : pystr_eqb a a = true.
Proof. apply pystr_eqb_eq; reflexivity. Qed.

Lemma pystr_eqb_neq (a b : pystr) : pystr_eqb a b = false <-> a <> b.
Proof.
  rewrite <- pystr_eqb_eq. destruct (pystr_eqb a b); split; congruence.
Qed.

Lemma lstrip_suffix (s : pystr) :
  exists p, s = p ++ lstrip s /\ forallb is_space p = true.
Proof.
  induction s as [|c r [p [Hp Hsp]]]; simpl.
  - exists []; auto.
  - destruct (is_space c) eqn:Hc.
    + exists (c :: p); simpl; rewrite Hc, Hsp; split; [f_equal; exact Hp | reflexivity].
    + exists []; auto.
Qed.

Lemma rstrip_prefix (s : pystr) :
  exists q, s = rstrip s ++ q /\ forallb is_space q = true.
Proof.
  unfold rstrip. destruct (lstrip_suffix (rev s)) as [p [Hp Hsp]].
  exists (rev p). split.
  - rewrite <- rev_app_distr, <- Hp, rev_involutive; reflexivity.
  - rewrite forallb_forall in *; intros x Hx; apply Hsp, in_rev; exact Hx.
Qed.

Lemma lstrip_head (s : pystr) : head_not_space (lstrip s).
Proof.
  induction s as [|c r IH]; simpl; auto.
  destruct (is_space c) eqn:Hc; simpl; auto.
Qed.

Lemma rstrip_head (s : pystr) : head_not_space s -> head_not_space (rstrip s).
Proof.
  intros H. destruct (rstrip_prefix s) as [q [Hq _]].
  destruct (rstrip s) as [|c r]; simpl; auto.
  rewrite Hq in H; exact H.
Qed.

Lemma strip_trimmed (s : pystr) : trimmed (strip s).
Proof.
  split; unfold strip.
  - apply rstrip_head, lstrip_head.
  - unfold rstrip; rewrite rev_involutive; apply lstrip_head.
Qed.

Lemma Forall_lstrip (P : Z -> Prop) (s : pystr) :
  Forall P s -> Forall P (lstrip s).
Proof.
  intros H. destruct (lstrip_suffix s) as [p [Hp _]].
  rewrite Hp in H. apply Forall_app in H; tauto.
Qed.

Lemma Forall_strip (P : Z -> Prop) (s : pystr) :
  Forall P s -> Forall P (strip s).
Proof.
  intros H. unfold strip.
  destruct (rstrip_prefix (lstrip s)) as [q [Hq _]].
  apply Forall_lstrip in H. rewrite Hq in H.
  apply Forall_app in H; tauto.
Qed.

Lemma no_ws_run_app (a b : pystr) :
  no_ws_run (a ++ b) = true -> no_ws_run a = true /\ no_ws_run b = true.
Proof.
  induction a as [|x a IH]; simpl; intros H.
  - split; auto.
  - destruct a as [|y a'].
    + split; auto. destruct b; simpl in *; auto.
      apply andb_true_iff in H; tauto.
    + simpl in *. apply andb_true_iff in H as [H1 H2].
      destruct (IH H2) as [Ha Hb]. rewrite H1, Ha; auto.
Qed.

Lemma no_ws_run_strip (s : pystr) :
  no_ws_run s = true -> no_ws_run (strip s) = true.
Proof.
  intros H. unfold strip.
  destruct (lstrip_suffix s) as [p [Hp _]].
  destruct (rstrip_prefix (lstrip s)) as [q [Hq _]].
  rewrite Hp in H. apply no_ws_run_app in H as [_ H].
  rewrite Hq in H. apply no_ws_run_app in H; tauto.
Qed.

(** ** Cleaning *)

Lemma is_space_SP : is_space SP = true.
Proof. reflexivity. Qed.

Lemma is_ctrl_SP : is_ctrl SP = false.
Proof. reflexivity. Qed.

(** After the whitespace collapse every character is a plain space or a
    character of the input that is not whitespace. *)
Lemma sub_ws_chars (b : bool) (s : pystr) :
  Forall (fun c => c = SP \/ (In c s /\ is_space c = false)) (sub_ws b s).
Proof.
  revert b; induction s as [|c r IH]; intros b; simpl; [constructor|].
  assert (Hr : forall b', Forall
            (fun x => x = SP \/ (In x (c :: r) /\ is_space x = false))
            (sub_ws b' r)).
  { intros b'. eapply Forall_impl; [|apply IH].
    simpl; intros x [Hx | [Hx Hs]]; auto. }
  destruct (is_space c) eqn:Hc.
  - destruct b; [apply Hr | constructor; [auto | apply Hr]].
  - constructor; [right; simpl; auto | apply Hr].
Qed.

Lemma sub_ws_only_SP (b : bool) (s : pystr) :
  Forall (fun c => is_space c = true -> c = SP) (sub_ws b s).
Proof.
  eapply Forall_impl; [|apply sub_ws_chars].
  simpl; intros c [Hc | [_ Hc]] Hs; [exact Hc | congruence].
Qed.

Lemma no_ws_run_cons (a b : Z) (r : pystr) :
  no_ws_run (a :: b :: r)
  = negb (is_space a && is_space b) && no_ws_run (b :: r).
Proof. reflexivity. Qed.

Lemma sub_ws_no_run (b : bool) (s : pystr) :
  no_ws_run (sub_ws b s) = true /\
  (b = true -> head_not_space (sub_ws b s)).
Proof.
  revert b; induction s as [|c r IH]; intros b; simpl; [auto|].
  destruct (is_space c) eqn:Hc.
  - destruct (IH true) as [Hn Hh]. specialize (Hh eq_refl).
    destruct b; [auto|]. split; [|discriminate].
    destruct (sub_ws true r) as [|d r'] eqn:Er; [reflexivity|].
    cbn [head_not_space] in Hh.
    rewrite no_ws_run_cons, Hh, andb_false_r. exact Hn.
  - destruct (IH false) as [Hn _]. split; [|intros _; exact Hc].
    destruct (sub_ws false r) as [|d r'] eqn:Er; [reflexivity|].
    rewrite no_ws_run_cons, Hc. exact Hn.
Qed.

(** The second substitution finds nothing to replace in a text without
    newlines. *)
Lemma sub_nl_no_newline (s : pystr) :
  Forall (fun c => c <> NL) s -> sub_nl 0 s = s.
Proof.
  induction 1 as [|c r Hc _ IH]; simpl; [reflexivity|].
  apply Z.eqb_neq in Hc. rewrite Hc, IH. reflexivity.
Qed.

Lemma sub_nl_after_sub_ws (s : pystr) :
  sub_nl 0 (sub_ws false s) = sub_ws false s.
Proof.
  apply sub_nl_no_newline.
  eapply Forall_impl; [|apply sub_ws_only_SP].
  simpl; intros c Hc E; subst c. specialize (Hc eq_refl). discriminate.
Qed.

Lemma del_ctrl_clean (s : pystr) :
  Forall (fun c => is_ctrl c = false) (del_ctrl s).
Proof.
  apply Forall_forall; intros c Hc.
  apply filter_In in Hc as [_ Hc]. apply negb_true_iff in Hc; exact Hc.
Qed.

Lemma del_ctrl_id (s : pystr) :
  Forall (fun c => is_ctrl c = false) s -> del_ctrl s = s.
Proof.
  unfold del_ctrl.
  induction 1 as [|c r Hc _ IH]; simpl; [reflexivity|].
  rewrite Hc; simpl. rewrite IH. reflexivity.
Qed.

Lemma Forall_del_ctrl (P : Z -> Prop) (s : pystr) :
  Forall P s -> Forall P (del_ctrl s).
Proof.
  rewrite !Forall_forall. intros H c Hc.
  apply filter_In in Hc as [Hc _]. auto.
Qed.

(** C4 (amended): [basic_cleaning] is the composition, in this order, of
    the whitespace collapse, the newline collapse (which then changes
    nothing), the control-character deletion and the trim.  Its output
    holds no character of the deleted ranges, no whitespace but plain
    spaces, and neither starts nor ends with whitespace.  When every
    input character of the deleted ranges is itself whitespace, the
    output has no two adjacent whitespace characters. *)
Theorem basic_cleaning_invariants (text : pystr) :
  basic_cleaning text
    = strip (del_ctrl (sub_nl 0 (sub_ws false text))) /\
  sub_nl 0 (sub_ws false text) = sub_ws false text /\
  Forall (fun c => is_ctrl c = false) (basic_cleaning text) /\
  Forall (fun c => is_space c = true -> c = SP) (basic_cleaning text) /\
  trimmed (basic_cleaning text) /\
  ((forall c, In c text -> is_ctrl c = true -> is_space c = true) ->
   no_ws_run (basic_cleaning text) = true).
Proof.
  unfold basic_cleaning.
  rewrite sub_nl_after_sub_ws.
  repeat split.
  - apply Forall_strip, del_ctrl_clean.
  - apply Forall_strip, Forall_del_ctrl, sub_ws_only_SP.
  - apply strip_trimmed.
  - apply strip_trimmed.
  - intros H. apply no_ws_run_strip.
    rewrite del_ctrl_id; [apply sub_ws_no_run|].
    eapply Forall_impl; [|apply sub_ws_chars].
    simpl; intros c [-> | [Hin Hs]]; [apply is_ctrl_SP|].
    destruct (is_ctrl c) eqn:Hc; [|reflexivity].
    rewrite (H c Hin Hc) in Hs; discriminate.
Qed.

Lemma ctrl_is_space_check (text : pystr) :
  forallb (fun c => implb (is_ctrl c) (is_space c)) text = true ->
  forall c, In c text -> is_ctrl c = true -> is_space c = true.
Proof.
  intros H c Hin Hc. rewrite forallb_forall in H.
  specialize (H c Hin). rewrite Hc in H. exact H.
Qed.

Lemma basic_cleaning_invariants_witness :
  no_ws_run (basic_cleaning (codes "a" ++ repeat NL 5 ++ codes "b    c"))
  = true.
Proof.
  apply (basic_cleaning_invariants
           (codes "a" ++ repeat NL 5 ++ codes "b    c")).
  apply ctrl_is_space_check. reflexivity.
Defined.

(** C4, as stated, fails: a control character between two spaces is
    deleted after the whitespace collapse and leaves both spaces. *)
Lemma basic_cleaning_ws_run_counterexample :
  basic_cleaning (codes "a " ++ [0x00] ++ codes " b") = codes "a  b" /\
  no_ws_run (basic_cleaning (codes "a " ++ [0x00] ++ codes " b")) = false.
Proof. split; reflexivity. Qed.

(** ** Extraction strategies *)

Lemma pypdf2_loop_spec (pages : list (result pystr)) (text : pystr) :
  pypdf2_loop text pages
  = (text ++ join_pages (pages_before_failure pages), first_failure pages).
Proof.
  revert text; induction pages as [|[t|e] rest IH]; intros text; simpl.
  - rewrite app_nil_r; reflexivity.
  - rewrite IH. unfold join_pages; simpl. rewrite <- !app_assoc.
    reflexivity.
  - rewrite app_nil_r; reflexivity.
Qed.

Lemma pdfplumber_loop_spec (pages : list (result (option pystr)))
  (text : pystr) :
  pdfplumber_loop text pages
  = (text ++ join_pages (kept_pages (pages_before_failure pages)),
     first_failure pages).
Proof.
  revert text; induction pages as [|[[t|]|e] rest IH]; intros text; simpl.
  - rewrite app_nil_r; reflexivity.
  - destruct (is_empty t); rewrite IH; [reflexivity|].
    unfold join_pages; simpl. rewrite <- !app_assoc. reflexivity.
  - apply IH.
  - rewrite app_nil_r; reflexivity.
Qed.

(** C5 (amended): neither strategy lets a backend failure out.  A failure
    to open the document yields the empty string and one warning; a
    failure on a page yields one warning and the text of the pages read
    before it; without failure nothing is printed. *)
Theorem strategies_contain_failures (env : world) (pdf_path : pystr) :
  extract_with_pypdf2 env pdf_path
  = match pypdf2_pages env pdf_path with
    | Raise e =>
        ([], [CallPyPDF2 pdf_path; Print (WarnPyPDF2 pdf_path e)])
    | Ok pages =>
        (join_pages (pages_before_failure pages),
         CallPyPDF2 pdf_path
           :: warning (WarnPyPDF2 pdf_path) (first_failure pages))
    end /\
  extract_with_pdfplumber env pdf_path
  = match plumber_pages env pdf_path with
    | Raise e =>
        ([], [CallPdfplumber pdf_path; Print (WarnPdfplumber pdf_path e)])
    | Ok pages =>
        (join_pages (kept_pages (pages_before_failure pages)),
         CallPdfplumber pdf_path
           :: warning (WarnPdfplumber pdf_path) (first_failure pages))
    end.
Proof.
  split.
  - unfold extract_with_pypdf2, pypdf2_try.
    destruct (pypdf2_pages env pdf_path) as [pages|e]; [|reflexivity].
    rewrite pypdf2_loop_spec.
    destruct (first_failure pages); reflexivity.
  - unfold extract_with_pdfplumber, pdfplumber_try.
    destruct (plumber_pages env pdf_path) as [pages|e]; [|reflexivity].
    rewrite pdfplumber_loop_spec.
    destruct (first_failure pages); reflexivity.
Qed.

(** C5, as stated, fails: the second page of [scan.pdf] raises, and the
    PyPDF2 strategy returns the first page's text, not the empty string. *)
Lemma strategy_partial_text_counterexample :
  pypdf2_pages sample_world (codes "scan.pdf")
  = Ok [Ok (codes "page one"); Raise "bad xref"; Ok (codes "lost")] /\
  fst (extract_with_pypdf2 sample_world (codes "scan.pdf"))
  = codes "page one" ++ [NL] /\
  fst (extract_with_pypdf2 sample_world (codes "scan.pdf")) <> [].
Proof. repeat split. discriminate. Qed.

(** Each strategy calls its own backend once and never the other. *)
Lemma pypdf2_calls (env : world) (p : pystr) :
  count_events is_call_pypdf2 (snd (extract_with_pypdf2 env p)) = 1%nat /\
  count_events is_call_pdfplumber (snd (extract_with_pypdf2 env p)) = 0%nat.
Proof.
  unfold extract_with_pypdf2.
  destruct (pypdf2_try env p) as [text [e|]]; split; reflexivity.
Qed.

Lemma pdfplumber_calls (env : world) (p : pystr) :
  count_events is_call_pdfplumber (snd (extract_with_pdfplumber env p))
  = 1%nat /\
  count_events is_call_pypdf2 (snd (extract_with_pdfplumber env p)) = 0%nat /\
  hd_error (snd (extract_with_pdfplumber env p)) = Some (CallPdfplumber p).
Proof.
  unfold extract_with_pdfplumber.
  destruct (pdfplumber_try env p) as [text [e|]]; repeat split; reflexivity.
Qed.

Lemma count_events_app (f : event -> bool) (a b : list event) :
  count_events f (a ++ b) = (count_events f a + count_events f b)%nat.
Proof. unfold count_events. rewrite filter_app, length_app. reflexivity. Qed.

Lemma bind_eq {A B : Type} (m : M A) (k : A -> M B) :
  bind m k = (fst (k (fst m)), snd m ++ snd (k (fst m))).
Proof. unfold bind. destruct m as [a t]. simpl. destruct (k a); reflexivity. Qed.

(** ** [extract_text] *)

(** C2: with the default method the pdfplumber strategy runs first, once;
    the PyPDF2 strategy runs, once, exactly when the pdfplumber text is
    blank, and then the cleaned PyPDF2 text is the result; otherwise the
    cleaned pdfplumber text is. *)
Theorem extract_text_default_fallback (env : world) (pdf_path : pystr) :
  let primary := extract_with_pdfplumber env pdf_path in
  let secondary := extract_with_pypdf2 env pdf_path in
  let run := extract_text env pdf_path default_method in
  run = (if blank (fst primary)
         then (basic_cleaning (fst secondary),
               snd primary
                 ++ Print (FallbackToPyPDF2 pdf_path) :: snd secondary)
         else (basic_cleaning (fst primary), snd primary)) /\
  hd_error (snd run) = Some (CallPdfplumber pdf_path) /\
  count_events is_call_pdfplumber (snd run) = 1%nat /\
  count_events is_call_pypdf2 (snd run)
  = (if blank (fst primary) then 1 else 0)%nat.
Proof.
  intros primary secondary run.
  assert (E : run = (if blank (fst primary)
         then (basic_cleaning (fst secondary),
               snd primary
                 ++ Print (FallbackToPyPDF2 pdf_path) :: snd secondary)
         else (basic_cleaning (fst primary), snd primary))).
  { subst run. unfold extract_text, default_method.
    rewrite pystr_eqb_refl, !bind_eq. fold primary. unfold blank.
    destruct (is_empty (strip (fst primary)));
      cbn [fst snd ret print emit]; rewrite ?app_nil_r; reflexivity. }
  destruct (pdfplumber_calls env pdf_path) as [P1 [P2 P3]].
  destruct (pypdf2_calls env pdf_path) as [S1 S2].
  fold primary in P1, P2, P3. fold secondary in S1, S2.
  split; [exact E|]. rewrite E.
  destruct (blank (fst primary)); simpl snd.
  - repeat split.
    + destruct (snd primary); [discriminate P3 | exact P3].
    + rewrite count_events_app. change (Print ?m :: ?t) with ([Print m] ++ t).
      rewrite count_events_app, P1, S2. reflexivity.
    + rewrite count_events_app. change (Print ?m :: ?t) with ([Print m] ++ t).
      rewrite count_events_app, P2, S1. reflexivity.
  - repeat split; assumption.
Qed.

(** C10: with any method other than ["pdfplumber"] only the PyPDF2
    strategy runs, once, whatever it returns; its text is cleaned. *)
Theorem extract_text_other_method (env : world) (pdf_path method : pystr) :
  method <> codes "pdfplumber" ->
  let secondary := extract_with_pypdf2 env pdf_path in
  let run := extract_text env pdf_path method in
  run = (basic_cleaning (fst secondary), snd secondary) /\
  count_events is_call_pdfplumber (snd run) = 0%nat /\
  count_events is_call_pypdf2 (snd run) = 1%nat.
Proof.
  intros Hm secondary run.
  assert (E : run = (basic_cleaning (fst secondary), snd secondary)).
  { subst run. unfold extract_text.
    apply pystr_eqb_neq in Hm. rewrite Hm, bind_eq. fold secondary.
    simpl. rewrite app_nil_r. reflexivity. }
  destruct (pypdf2_calls env pdf_path) as [S1 S2].
  rewrite E. simpl. auto.
Qed.

Lemma extract_text_other_method_witness :
  extract_text sample_world (codes "empty.pdf") (codes "pypdf2")
  = ([], [CallPyPDF2 (codes "empty.pdf")]) /\
  count_events is_call_pdfplumber
    (snd (extract_text sample_world (codes "scan.pdf") (codes "ocr")))
  = 0%nat.
Proof.
  split.
  - apply (extract_text_other_method sample_world (codes "empty.pdf")
             (codes "pypdf2")).
    discriminate.
  - apply (extract_text_other_method sample_world (codes "scan.pdf")
             (codes "ocr")).
    discriminate.
Defined.

(** ** Dictionaries *)

Lemma dict_get_set_same {V : Type} (k : pystr) (v : V) (d : dict V) :
  dict_get k (dict_set k v d) = Some v.
Proof.
  induction d as [|[k' v'] r IH]; simpl.
  - rewrite pystr_eqb_refl; reflexivity.
  - destruct (pystr_eqb k k') eqn:E; simpl; rewrite E; auto.
Qed.

Lemma dict_get_set_other {V : Type} (k k0 : pystr) (v : V) (d : dict V) :
  k0 <> k -> dict_get k0 (dict_set k v d) = dict_get k0 d.
Proof.
  intros Hk. induction d as [|[k' v'] r IH]; simpl.
  - apply pystr_eqb_neq in Hk. rewrite Hk; reflexivity.
  - destruct (pystr_eqb k k') eqn:E; simpl.
    + apply pystr_eqb_eq in E; subst k'.
      apply pystr_eqb_neq in Hk. rewrite Hk; reflexivity.
    + rewrite IH; reflexivity.
Qed.

(** ** Classification *)

Lemma starts_with_prefix (x s : pystr) :
  starts_with x s = true <-> exists b, s = x ++ b.
Proof.
  revert s; induction x as [|a x IH]; intros s; simpl.
  - split; [intros _; exists s; reflexivity | reflexivity].
  - destruct s as [|c s].
    + split; [discriminate | intros [b Hb]; discriminate].
    + rewrite andb_true_iff, Z.eqb_eq, IH. split.
      * intros [-> [b ->]]. exists b; reflexivity.
      * intros [b Hb]. inversion Hb; subst. split; [reflexivity|].
        exists b; reflexivity.
Qed.

Lemma contains_substring (x s : pystr) :
  contains x s = true <-> substring x s.
Proof.
  unfold substring. induction s as [|c s IH].
  - simpl. rewrite orb_false_r, starts_with_prefix. split.
    + intros [b Hb]. exists [], b. exact Hb.
    + intros [a [b Hb]]. destruct a; [exists b; exact Hb | discriminate].
  - cbn [contains]. rewrite orb_true_iff, starts_with_prefix, IH. split.
    + intros [[b Hb] | [a [b Hb]]].
      * exists [], b. exact Hb.
      * exists (c :: a), b. rewrite Hb. reflexivity.
    + intros [[|a0 a] [b Hb]].
      * left. exists b. exact Hb.
      * right. inversion Hb; subst. exists a, b. reflexivity.
Qed.

Lemma any_in_matches (kws : list pystr) (s : pystr) :
  any_in kws s = true <-> matches kws s.
Proof.
  unfold any_in, matches. rewrite existsb_exists.
  split; intros [x [Hx Hc]]; exists x; split; auto;
    apply contains_substring; exact Hc.
Qed.

Lemma any_in_no_match (kws : list pystr) (s : pystr) :
  any_in kws s = false <-> ~ matches kws s.
Proof.
  rewrite <- any_in_matches. destruct (any_in kws s); split; congruence.
Qed.

Ltac split_leb :=
  repeat (match goal with
          | |- context [?a <=? ?b] => destruct (Z.leb_spec a b)
          end; cbn [andb orb negb]).

Lemma ascii_lower_upper (name : pystr) :
  map ascii_lower (map ascii_upper name) = map ascii_lower name.
Proof.
  rewrite map_map. apply map_ext. intros c.
  unfold ascii_lower, ascii_upper, in_range.
  destruct (Z.leb_spec 0x61 c), (Z.leb_spec c 0x7a); cbn [andb];
    split_leb; lia.
Qed.

Lemma ascii_upper_ascii (name : pystr) :
  forallb is_ascii name = true ->
  forallb is_ascii (map ascii_upper name) = true.
Proof.
  rewrite !forallb_forall. intros H c Hc.
  apply in_map_iff in Hc as [d [<- Hd]]. specialize (H d Hd).
  revert H. unfold is_ascii, ascii_upper, in_range.
  destruct (Z.leb_spec 0x61 d), (Z.leb_spec d 0x7a); cbn [andb];
    split_leb; intros; try discriminate; try reflexivity; lia.
Qed.

(** C3: the [source_type] stored for a file is the label of the first of
    the four keyword sets, in the order Consulting, Academic, Industry,
    Policy, one of whose keywords is a substring of the lower-cased
    filename, and ["Unknown"] when none has one; a later set is never
    consulted once an earlier one matches.  With an ASCII-faithful
    [str.lower], ["deloitte_wef_report.pdf"] is Consulting and the
    upper-cased filename gets the same label. *)
Theorem source_type_priority (env : world) (name text : pystr) :
  let low := str_lower env name in
  let stype := detect_source_type low in
  dict_get (codes "source_type") (fst (extract_metadata env name text))
  = Some (VStr stype) /\
  stype = first_match source_rules low /\
  (matches consulting_kw low -> stype = codes "Consulting") /\
  (~ matches consulting_kw low -> matches academic_kw low ->
   stype = codes "Academic") /\
  (~ matches consulting_kw low -> ~ matches academic_kw low ->
   matches industry_kw low -> stype = codes "Industry") /\
  (~ matches consulting_kw low -> ~ matches academic_kw low ->
   ~ matches industry_kw low -> matches policy_kw low ->
   stype = codes "Policy") /\
  (~ matches consulting_kw low -> ~ matches academic_kw low ->
   ~ matches industry_kw low -> ~ matches policy_kw low ->
   stype = codes "Unknown") /\
  (lower_on_ascii env ->
   detect_source_type (str_lower env (codes "deloitte_wef_report.pdf"))
   = codes "Consulting" /\
   (forallb is_ascii name = true ->
    detect_source_type (str_lower env (map ascii_upper name)) = stype)).
Proof.
  intros low stype. split; [|split].
  - unfold extract_metadata. rewrite !bind_eq. cbn [fst snd ret].
    apply dict_get_set_same.
  - reflexivity.
  - subst stype. unfold detect_source_type.
    repeat split; intros;
      repeat match goal with
             | H : matches _ _ |- _ => apply any_in_matches in H; rewrite H
             | H : ~ matches _ _ |- _ =>
                 apply any_in_no_match in H; rewrite H
             end; try reflexivity.
    + rewrite H by reflexivity. reflexivity.
    + rewrite (H (map ascii_upper name)) by (apply ascii_upper_ascii; auto).
      rewrite ascii_lower_upper. subst low. rewrite (H name) by auto.
      reflexivity.
Qed.

Lemma sample_world_lower : lower_on_ascii sample_world.
Proof. intros s _. reflexivity. Qed.

Lemma source_type_priority_witness :
  matches consulting_kw (codes "deloitte_wef_report.pdf") /\
  matches policy_kw (codes "deloitte_wef_report.pdf") /\
  detect_source_type
    (str_lower sample_world (codes "deloitte_wef_report.pdf"))
  = codes "Consulting" /\
  detect_source_type (str_lower sample_world (codes "DELOITTE_WEF_REPORT.PDF"))
  = codes "Consulting".
Proof.
  assert (Hc : matches consulting_kw (codes "deloitte_wef_report.pdf")).
  { exists (codes "deloitte"). split; [simpl; tauto|].
    exists [], (codes "_wef_report.pdf"). reflexivity. }
  assert (Hp : matches policy_kw (codes "deloitte_wef_report.pdf")).
  { exists (codes "wef"). split; [simpl; tauto|].
    exists (codes "deloitte_"), (codes "_report.pdf"). reflexivity. }
  pose proof (source_type_priority sample_world
                (codes "deloitte_wef_report.pdf") []) as T.
  cbv zeta in T.
  destruct T as [_ [_ [T1 [_ [_ [_ [_ T2]]]]]]].
  split; [exact Hc|]. split; [exact Hp|]. split.
  - apply T1. exact Hc.
  - refine (eq_trans _ (T1 Hc)).
    exact (proj2 (T2 sample_world_lower) eq_refl).
Defined.

(** ** [extract_metadata] *)

Lemma metadata_try_failure (env : world) (p : pystr) (md : dict value)
  (e : exn) :
  metadata_failure env p = Some e ->
  snd (metadata_try env p md) = Some e /\
  (fst (metadata_try env p md) = md \/
   exists n, fst (metadata_try env p md)
             = dict_set (codes "page_count") (VInt n) md).
Proof.
  unfold metadata_failure, metadata_try.
  destruct (open_reader env p) as [rd|e0]; [|intros [= ->]; auto].
  destruct (num_pages rd) as [n|e0]; [|intros [= ->]; auto].
  destruct (doc_info rd) as [info|e0]; [discriminate|].
  intros [= ->]. split; [reflexivity|]. right. exists n. reflexivity.
Qed.

(** C6 (amended): for a path whose [stat()] returns, when the
    re-opening of the PDF, its page count or its document information
    fails, [extract_metadata] still returns: one warning is printed, the
    result holds the six fields computed from the path and the text,
    [page_count = 0] and [source_type], and the keys [title], [author],
    [subject] and [creator] are absent.  When [stat()] itself raises,
    the exception leaves [extract_metadata] and nothing is printed. *)
Theorem extract_metadata_on_failure (stat : pystr -> result Z)
  (env : world) (pdf_path text : pystr) (e : exn) :
  metadata_failure env pdf_path = Some e ->
  (forall size, stat pdf_path = Ok size ->
     exists metadata,
       extract_metadata_stat stat env pdf_path text
       = (Ok metadata,
          [OpenForMetadata pdf_path; Print (WarnMetadata e)]) /\
       metadata
       = [ (codes "filename", VStr pdf_path);
           (codes "file_size_mb", VSizeMb size);
           (codes "extraction_date", VStr (now_iso env pdf_path));
           (codes "char_count", VInt (len text));
           (codes "word_count", VInt (len (split_ws [] text)));
           (codes "line_count", VInt (len (split_on NL [] text)));
           (codes "page_count", VInt 0);
           (codes "source_type",
            VStr (detect_source_type (str_lower env pdf_path))) ] /\
       has_key (codes "title") metadata = false /\
       has_key (codes "author") metadata = false /\
       has_key (codes "subject") metadata = false /\
       has_key (codes "creator") metadata = false) /\
  (forall e', stat pdf_path = Raise e' ->
     extract_metadata_stat stat env pdf_path text = (Raise e', [])).
Proof.
  intros Hf. split.
  - intros size Hs. unfold extract_metadata_stat. rewrite Hs.
    destruct (metadata_try_failure (with_size env size) pdf_path
                (text_fields (with_size env size) pdf_path text) e Hf)
      as [Hsnd Hd].
    assert (E : extract_metadata (with_size env size) pdf_path text
      = ([ (codes "filename", VStr pdf_path);
           (codes "file_size_mb", VSizeMb size);
           (codes "extraction_date", VStr (now_iso env pdf_path));
           (codes "char_count", VInt (len text));
           (codes "word_count", VInt (len (split_ws [] text)));
           (codes "line_count", VInt (len (split_on NL [] text)));
           (codes "page_count", VInt 0);
           (codes "source_type",
            VStr (detect_source_type (str_lower env pdf_path))) ],
         [OpenForMetadata pdf_path; Print (WarnMetadata e)])).
    { unfold extract_metadata.
      destruct (metadata_try (with_size env size) pdf_path
                  (text_fields (with_size env size) pdf_path text))
        as [md o]. cbn [fst snd] in Hsnd, Hd. subst o.
      destruct Hd as [-> | [n ->]]; reflexivity. }
    rewrite E. eexists. split; [reflexivity|]. repeat split.
  - intros e' Hs. unfold extract_metadata_stat. rewrite Hs. reflexivity.
Qed.

Lemma extract_metadata_on_failure_witness :
  (exists metadata,
     extract_metadata_stat (fun _ => Ok 2097152) sample_world
       (codes "scan.pdf") (codes "page one")
     = (Ok metadata,
        [OpenForMetadata (codes "scan.pdf");
         Print (WarnMetadata "file is locked"%string)]) /\
     dict_keys metadata
     = [codes "filename"; codes "file_size_mb"; codes "extraction_date";
        codes "char_count"; codes "word_count"; codes "line_count";
        codes "page_count"; codes "source_type"]) /\
  extract_metadata_stat (fun _ => Raise "No such file or directory")
    sample_world (codes "scan.pdf") (codes "page one")
  = (Raise "No such file or directory", []).
Proof.
  split.
  - destruct (proj1 (extract_metadata_on_failure (fun _ => Ok 2097152)
                       sample_world (codes "scan.pdf") (codes "page one")
                       "file is locked"%string eq_refl) 2097152 eq_refl)
      as [metadata [E [Hm _]]].
    exists metadata. split; [exact E|]. rewrite Hm. reflexivity.
  - apply (proj2 (extract_metadata_on_failure
                    (fun _ => Raise "No such file or directory")
                    sample_world (codes "scan.pdf") (codes "page one")
                    "file is locked"%string eq_refl)).
    reflexivity.
Defined.

(** C6, as stated, fails: for [scan.pdf], whose [stat()] returns, the
    re-opening raises and the returned mapping has no [title] key (nor
    the three other descriptive keys) instead of empty strings. *)
Lemma extract_metadata_missing_keys_counterexample :
  open_reader sample_world (codes "scan.pdf") = Raise "file is locked" /\
  exists metadata t,
    extract_metadata_stat (fun _ => Ok 2097152) sample_world
      (codes "scan.pdf") (codes "page one") = (Ok metadata, t) /\
    dict_get (codes "title") metadata = None /\
    dict_get (codes "title") metadata <> Some (VStr []).
Proof.
  split; [reflexivity|]. eexists. eexists.
  split; [reflexivity|]. split; [reflexivity | discriminate].
Qed.

(** ** [validate_jsonl] *)

Lemma numbered_loads_app (a b : list pystr) (i : Z) :
  numbered_loads i (a ++ b)
  = numbered_loads i a ++ numbered_loads (i + len a) b.
Proof.
  revert i; induction a as [|l a IH]; intros i; simpl.
  - unfold len; simpl. rewrite Z.add_0_r. reflexivity.
  - rewrite IH. replace (i + 1 + len a) with (i + len (l :: a));
      [reflexivity|]. unfold len; simpl List.length; lia.
Qed.

(** The lines that decode are passed one by one. *)
Lemma validate_loop_prefix (json_loads : pystr -> decoded)
  (pre : list pystr) (rest : list (result pystr)) :
  Forall (fun l => json_loads l = Decoded) pre ->
  forall i,
    validate_loop json_loads i (map Ok pre ++ rest)
    = (fst (validate_loop json_loads (i + len pre) rest),
       numbered_loads i pre
         ++ snd (validate_loop json_loads (i + len pre) rest)).
Proof.
  induction 1 as [|l r Hl _ IH]; intros i.
  - unfold len; simpl. rewrite Z.add_0_r.
    destruct (validate_loop json_loads i rest); reflexivity.
  - cbn [map app validate_loop]. rewrite Hl, IH. cbn [fst snd].
    replace (i + 1 + len r) with (i + len (l :: r));
      [reflexivity|]. unfold len; simpl List.length; lia.
Qed.

Lemma numbered_loads_quiet (i : Z) (lines : list pystr) :
  filter is_no_problem (numbered_loads i lines) = [] /\
  filter is_error_line (numbered_loads i lines) = [].
Proof.
  revert i; induction lines as [|l r IH]; intros i; simpl; auto.
Qed.

(** C7 (amended): the lines are decoded one by one, in order, numbered
    from 1.  When every line is read and decodes, the success line is
    printed once, after the last line.  At the first line on which the
    decoder raises [JSONDecodeError], the error line carries that line's
    number and the decoder's detail, and the run ends there: no later
    line is decoded and the success line is not printed.  When the
    decoder raises another exception, when a line cannot be read, or
    when the file cannot be opened, the exception leaves the function:
    no later line is decoded and nothing is printed. *)
Theorem validate_jsonl_reports (json_loads : pystr -> decoded) :
  (forall lines,
     Forall (fun l => json_loads l = Decoded) lines ->
     validate_jsonl json_loads (Ok (map Ok lines))
     = (Ok tt, numbered_loads 1 lines ++ [PrintNoProblem]) /\
     filter is_no_problem
       (snd (validate_jsonl json_loads (Ok (map Ok lines))))
     = [PrintNoProblem]) /\
  (forall pre line post e,
     Forall (fun l => json_loads l = Decoded) pre ->
     json_loads line = DecodeError e ->
     validate_jsonl json_loads (Ok (map Ok pre ++ Ok line :: post))
     = (Ok tt,
        numbered_loads 1 (pre ++ [line])
          ++ [PrintErrorLine (len pre + 1) e])) /\
  (forall pre line post e,
     Forall (fun l => json_loads l = Decoded) pre ->
     json_loads line = OtherError e ->
     validate_jsonl json_loads (Ok (map Ok pre ++ Ok line :: post))
     = (Raise e, numbered_loads 1 (pre ++ [line]))) /\
  (forall pre post e,
     Forall (fun l => json_loads l = Decoded) pre ->
     validate_jsonl json_loads (Ok (map Ok pre ++ Raise e :: post))
     = (Raise e, numbered_loads 1 pre)) /\
  (forall e, validate_jsonl json_loads (Raise e) = (Raise e, [])).
Proof.
  split; [|split; [|split; [|split]]].
  - intros lines H. cbn [validate_jsonl].
    rewrite <- (app_nil_r (map Ok lines)), (validate_loop_prefix _ _ [] H).
    cbn [validate_loop fst snd]. split; [reflexivity|].
    rewrite filter_app. destruct (numbered_loads_quiet 1 lines) as [-> _].
    reflexivity.
  - intros pre line post e H He. cbn [validate_jsonl].
    rewrite (validate_loop_prefix _ _ _ H). cbn [validate_loop].
    rewrite He. cbn [fst snd]. rewrite numbered_loads_app.
    cbn [numbered_loads]. rewrite <- app_assoc, (Z.add_comm (len pre)).
    reflexivity.
  - intros pre line post e H He. cbn [validate_jsonl].
    rewrite (validate_loop_prefix _ _ _ H). cbn [validate_loop].
    rewrite He. cbn [fst snd]. rewrite numbered_loads_app. reflexivity.
  - intros pre post e H. cbn [validate_jsonl].
    rewrite (validate_loop_prefix _ _ _ H). cbn [validate_loop fst snd].
    rewrite app_nil_r. reflexivity.
  - reflexivity.
Qed.

Lemma validate_jsonl_reports_witness :
  validate_jsonl sample_loads
    (Ok [Ok (codes "[1]"); Ok (codes "[2]"); Ok (codes "NOT JSON");
         Ok (codes "[3]")])
  = (Ok tt,
     [Loads 1 (codes "[1]"); Loads 2 (codes "[2]");
      Loads 3 (codes "NOT JSON");
      PrintErrorLine 3 "Expecting value"%string]) /\
  validate_jsonl sample_loads (Ok [Ok (codes "[1]"); Ok (codes "[2]")])
  = (Ok tt, [Loads 1 (codes "[1]"); Loads 2 (codes "[2]"); PrintNoProblem]).
Proof.
  destruct (validate_jsonl_reports sample_loads) as [T1 [T2 _]].
  split.
  - apply (T2 [codes "[1]"; codes "[2]"] (codes "NOT JSON")
             [Ok (codes "[3]")] "Expecting value"%string).
    + repeat constructor.
    + reflexivity.
  - apply (T1 [codes "[1]"; codes "[2]"]). repeat constructor.
Defined.

(** C7, as stated, fails: the second line is an integer of 4301 digits,
    on which the decoder raises [ValueError]; no error line is printed
    for it and the exception leaves the function. *)
Lemma validate_jsonl_uncaught_counterexample :
  sample_loads (repeat 0x31 4301)
  = OtherError
      "Exceeds the limit (4300 digits) for integer string conversion" /\
  validate_jsonl sample_loads
    (Ok [Ok (codes "[1]"); Ok (repeat 0x31 4301); Ok (codes "[3]")])
  = (Raise "Exceeds the limit (4300 digits) for integer string conversion",
     [Loads 1 (codes "[1]"); Loads 2 (repeat 0x31 4301)]) /\
  filter is_error_line
    (snd (validate_jsonl sample_loads
            (Ok [Ok (codes "[1]"); Ok (repeat 0x31 4301);
                 Ok (codes "[3]")])))
  = [].
Proof. repeat split; vm_compute; reflexivity. Qed.

(** ** [process_all_pdfs] *)

Lemma dict_set_keys_eq {V W : Type} (k : pystr) (v : V) (w : W)
  (d1 : dict V) (d2 : dict W) :
  dict_keys d1 = dict_keys d2 ->
  dict_keys (dict_set k v d1) = dict_keys (dict_set k w d2).
Proof.
  revert d2; induction d1 as [|[k1 v1] r1 IH]; intros [|[k2 v2] r2];
    simpl; try discriminate; [reflexivity|].
  intros [= -> Hr]. destruct (pystr_eqb k k2); simpl.
  - rewrite Hr; reflexivity.
  - rewrite (IH r2 Hr); reflexivity.
Qed.

Lemma dict_set_keys_In {V : Type} (k k0 : pystr) (v : V) (d : dict V) :
  In k0 (dict_keys (dict_set k v d)) <-> k0 = k \/ In k0 (dict_keys d).
Proof.
  induction d as [|[k' v'] r IH]; simpl.
  - intuition.
  - destruct (pystr_eqb k k') eqn:E; simpl.
    + apply pystr_eqb_eq in E; subst k'. intuition.
    + rewrite IH. intuition.
Qed.

Lemma dict_set_values_Forall {V : Type} (P : V -> Prop) (k : pystr) (v : V)
  (d : dict V) :
  P v -> Forall P (dict_values d) -> Forall P (dict_values (dict_set k v d)).
Proof.
  intros Hv. induction d as [|[k' v'] r IH]; simpl; intros H.
  - constructor; auto.
  - inversion H; subst. destruct (pystr_eqb k k'); simpl; constructor; auto.
Qed.

Lemma dict_get_of_key {V : Type} (k : pystr) (d : dict V) :
  In k (dict_keys d) ->
  exists v, dict_get k d = Some v /\ In v (dict_values d).
Proof.
  induction d as [|[k' v'] r IH]; simpl; [tauto|].
  intros H. destruct (pystr_eqb k k') eqn:E.
  - exists v'; auto.
  - destruct H as [H | H].
    + subst k'. rewrite pystr_eqb_refl in E; discriminate.
    + destruct (IH H) as [v [Hg Hv]]. exists v; auto.
Qed.

Lemma blank_nonempty (t : pystr) : blank t = false -> t <> [].
Proof. intros H ->. discriminate. Qed.

(** One turn of the loop, on the mappings. *)
Lemma process_loop_cons (env : world) (total i : Z) (p : pystr)
  (rest : list pystr) (ts : dict pystr) (ms : dict (dict value)) :
  fst (process_loop env total i (p :: rest) ts ms)
  = if blank (fst (extract_text env p default_method))
    then fst (process_loop env total (i + 1) rest ts ms)
    else fst (process_loop env total (i + 1) rest
                (dict_set (stem p) (fst (extract_text env p default_method))
                   ts)
                (dict_set (stem p)
                   (fst (extract_metadata env p
                           (fst (extract_text env p default_method))))
                   ms)).
Proof.
  cbn [process_loop]. rewrite !bind_eq. cbn [fst]. unfold blank.
  destruct (is_empty (strip (fst (extract_text env p default_method))));
    rewrite ?bind_eq; reflexivity.
Qed.

Lemma process_loop_invariant (env : world) (total : Z)
  (pdf_files : list pystr) :
  forall (i : Z) (ts : dict pystr) (ms : dict (dict value)),
    dict_keys ts = dict_keys ms ->
    Forall (fun t => blank t = false) (dict_values ts) ->
    let out := fst (process_loop env total i pdf_files ts ms) in
    dict_keys (fst out) = dict_keys (snd out) /\
    Forall (fun t => blank t = false) (dict_values (fst out)) /\
    (forall k, In k (dict_keys (fst out)) <->
               In k (dict_keys ts) \/
               exists p, In p pdf_files /\ contributes env k p).
Proof.
  induction pdf_files as [|p rest IH]; intros i ts ms Hk Hb.
  - simpl. repeat split; auto.
    + intros [H | [p [[] _]]]; exact H.
  - cbv zeta. rewrite process_loop_cons.
    destruct (blank (fst (extract_text env p default_method))) eqn:Eb.
    + destruct (IH (i + 1) ts ms Hk Hb) as [H1 [H2 H3]].
      repeat split; auto.
      * intros H. apply H3 in H as [H | [q [Hq Hc]]]; [auto|].
        right. exists q. split; [right|]; auto.
      * intros [H | [q [[<- | Hq] Hc]]]; apply H3; auto.
        -- destruct Hc as [_ Hc]. congruence.
        -- right. exists q; auto.
    + set (text := fst (extract_text env p default_method)) in *.
      set (md := fst (extract_metadata env p text)).
      destruct (IH (i + 1) (dict_set (stem p) text ts)
                  (dict_set (stem p) md ms)) as [H1 [H2 H3]].
      * apply dict_set_keys_eq; exact Hk.
      * apply dict_set_values_Forall; auto.
      * repeat split; auto.
        -- intros H. apply H3 in H as [H | [q [Hq Hc]]].
           ++ apply dict_set_keys_In in H as [-> | H]; [|auto].
              right. exists p. split; [left; auto|]. split; auto.
           ++ right. exists q. split; [right|]; auto.
        -- intros [H | [q [[<- | Hq] Hc]]]; apply H3.
           ++ left. apply dict_set_keys_In; auto.
           ++ left. apply dict_set_keys_In. left. destruct Hc; auto.
           ++ right. exists q; auto.
Qed.

(** C1: the two mappings returned by [process_all_pdfs] have the same
    keys, in the same order; every key of [metadata_dict] has in [texts]
    a text that is neither empty nor whitespace-only; a key is present
    exactly when a listed file with that stem was extracted to a
    non-blank text; and a file extracted to a blank text leaves both
    mappings as they were. *)
Theorem process_all_pdfs_key_sets (env : world) :
  let texts := fst (fst (process_all_pdfs env)) in
  let metadata_dict := snd (fst (process_all_pdfs env)) in
  dict_keys texts = dict_keys metadata_dict /\
  (forall k, In k (dict_keys metadata_dict) ->
     exists t, dict_get k texts = Some t /\ t <> [] /\ blank t = false) /\
  (forall k, In k (dict_keys texts) <->
     exists p, In p (glob_pdf env) /\ stem p = k /\
               blank (fst (extract_text env p default_method)) = false) /\
  (forall total i p rest ts ms,
     blank (fst (extract_text env p default_method)) = true ->
     fst (process_loop env total i (p :: rest) ts ms)
     = fst (process_loop env total (i + 1) rest ts ms)).
Proof.
  intros texts metadata_dict.
  assert (Inv : dict_keys texts = dict_keys metadata_dict /\
                Forall (fun t => blank t = false) (dict_values texts) /\
                (forall k, In k (dict_keys texts) <->
                   exists p, In p (glob_pdf env) /\ contributes env k p)).
  { subst texts metadata_dict. unfold process_all_pdfs.
    destruct (glob_pdf env) as [|p0 files] eqn:Eg.
    - simpl. repeat split; auto; [tauto|]. intros [p [[] _]].
    - rewrite bind_eq. cbn [fst].
      destruct (process_loop_invariant env (len (p0 :: files)) (p0 :: files)
                  1 [] [] eq_refl (Forall_nil _)) as [H1 [H2 H3]].
      repeat split; auto.
      + intros H. apply H3 in H as [[] | H]. exact H.
      + intros H. apply H3. right. exact H. }
  destruct Inv as [H1 [H2 H3]]. repeat split.
  - exact H1.
  - intros k Hk. rewrite <- H1 in Hk.
    destruct (dict_get_of_key k texts Hk) as [t [Hg Ht]].
    rewrite Forall_forall in H2. specialize (H2 t Ht).
    exists t. repeat split; auto. apply blank_nonempty; exact H2.
  - intros H. apply H3 in H as [p [Hp [Hs Hb]]]. exists p; auto.
  - intros [p [Hp [Hs Hb]]]. apply H3. exists p. split; [|split]; auto.
  - intros total i p rest ts ms Hb. rewrite process_loop_cons, Hb.
    reflexivity.
Qed.

Lemma process_all_pdfs_key_sets_witness :
  In (codes "scan") (dict_keys (fst (fst (process_all_pdfs sample_world)))) /\
  exists t, dict_get (codes "scan") (fst (fst (process_all_pdfs sample_world)))
            = Some t /\ t <> [] /\ blank t = false.
Proof.
  pose proof (process_all_pdfs_key_sets sample_world) as T.
  cbv zeta in T. destruct T as [T1 [T2 [T3 _]]].
  assert (Hk : In (codes "scan")
                 (dict_keys (fst (fst (process_all_pdfs sample_world))))).
  { apply T3. exists (codes "scan.pdf").
    split; [simpl; tauto | split; reflexivity]. }
  split; [exact Hk|]. apply T2. rewrite <- T1. exact Hk.
Defined.

(** C8: without any listed PDF, [process_all_pdfs] prints the error line
    and returns two empty mappings; no strategy is called. *)
Theorem process_all_pdfs_no_input (env : world) :
  glob_pdf env = [] ->
  process_all_pdfs env = (([], []), [Print ErrNoPdfFound]) /\
  count_events is_call_pdfplumber (snd (process_all_pdfs env)) = 0%nat /\
  count_events is_call_pypdf2 (snd (process_all_pdfs env)) = 0%nat.
Proof.
  intros H. unfold process_all_pdfs. rewrite H. repeat split.
Qed.

Lemma process_all_pdfs_no_input_witness :
  process_all_pdfs empty_world = (([], []), [Print ErrNoPdfFound]).
Proof.
  apply (process_all_pdfs_no_input empty_world). reflexivity.
Defined.

(** ** [generate_extraction_report] *)

Lemma report_ready_fields (meta : dict value) :
  report_ready meta = true ->
  (exists f, dict_get (codes "filename") meta = Some f) /\
  (exists w, dict_get (codes "word_count") meta = Some (VInt w)) /\
  (exists p, dict_get (codes "page_count") meta = Some (VInt p)) /\
  (exists t, dict_get (codes "source_type") meta = Some (VStr t)).
Proof.
  unfold report_ready.
  destruct (dict_get (codes "filename") meta) as [f|]; [|discriminate].
  destruct (dict_get (codes "word_count") meta) as [[w| |]|];
    try discriminate.
  destruct (dict_get (codes "page_count") meta) as [[p| |]|];
    try discriminate.
  destruct (dict_get (codes "source_type") meta) as [[|t|]|];
    try discriminate.
  intros _. repeat split; eexists; reflexivity.
Qed.

Lemma sum_key_total (k : pystr) (metas : list (dict value)) :
  Forall (fun m => exists z, dict_get k m = Some (VInt z)) metas ->
  forall acc,
    sum_key k metas acc = Some (acc + sum_Z (map (int_field k) metas)).
Proof.
  induction 1 as [|m r [z Hz] _ IH]; intros acc; simpl.
  - rewrite Z.add_0_r; reflexivity.
  - rewrite Hz, IH. unfold int_field at 2. rewrite Hz.
    rewrite Z.add_assoc. reflexivity.
Qed.

Lemma document_details_total (md : dict (dict value)) :
  forallb report_ready (dict_values md) = true ->
  exists ds, document_details md = Some ds /\
             List.length ds = List.length md.
Proof.
  induction md as [|[k meta] r IH]; simpl.
  - intros _. exists []; auto.
  - rewrite andb_true_iff. intros [Hm Hr].
    destruct (IH Hr) as [ds [Hd Hl]].
    destruct (report_ready_fields meta Hm)
      as [[f Hf] [[w Hw] [[p Hp] [t Ht]]]].
    rewrite Hf, Hw, Hp, Ht, Hd. eexists; split; [reflexivity|].
    simpl; rewrite Hl; reflexivity.
Qed.

Lemma get_or_zero_set (t s : pystr) (n : Z) (st : dict Z) :
  get_or_zero t (dict_set s n st)
  = if pystr_eqb t s then n else get_or_zero t st.
Proof.
  unfold get_or_zero. destruct (pystr_eqb t s) eqn:E.
  - apply pystr_eqb_eq in E; subst. rewrite dict_get_set_same; reflexivity.
  - apply pystr_eqb_neq in E. rewrite dict_get_set_other; auto.
Qed.

Lemma dict_set_keys_cases {V : Type} (k : pystr) (v : V) (d : dict V) :
  (In k (dict_keys d) /\ dict_keys (dict_set k v d) = dict_keys d) \/
  (~ In k (dict_keys d) /\ dict_keys (dict_set k v d) = dict_keys d ++ [k]).
Proof.
  induction d as [|[k' v'] r IH]; simpl.
  - right; auto.
  - destruct (pystr_eqb k k') eqn:E; simpl.
    + apply pystr_eqb_eq in E; subst. left; auto.
    + apply pystr_eqb_neq in E.
      destruct IH as [[Hi He] | [Hi He]]; rewrite He.
      * left; auto.
      * right. split; [|reflexivity]. intros [H | H]; congruence.
Qed.

Lemma dict_set_keys_NoDup {V : Type} (k : pystr) (v : V) (d : dict V) :
  NoDup (dict_keys d) -> NoDup (dict_keys (dict_set k v d)).
Proof.
  intros H. destruct (dict_set_keys_cases k v d) as [[_ ->] | [Hi ->]].
  - exact H.
  - apply NoDup_app; [exact H | repeat constructor; simpl; tauto |].
    intros x Hx [<- | []]. contradiction.
Qed.



Lemma count_type_cons (t : pystr) (meta : dict value)
  (rest : list (dict value)) :
  count_type t (meta :: rest)
  = (if has_type t meta then 1 else 0) + count_type t rest.
Proof.
  unfold count_type, len. cbn [filter].
  destruct (has_type t meta); cbn [List.length]; lia.
Qed.

Lemma count_type_nonneg (t : pystr) (metas : list (dict value)) :
  0 <= count_type t metas.
Proof. unfold count_type, len. lia. Qed.

Lemma count_source_types_spec (metas : list (dict value)) :
  Forall (fun m => exists s,
            dict_get (codes "source_type") m = Some (VStr s)) metas ->
  forall st,
    exists st',
      count_source_types metas st = Some st' /\
      (forall t,
         get_or_zero t st' = get_or_zero t st + count_type t metas) /\
      (forall t, In t (dict_keys st') <->
                 In t (dict_keys st) \/ 0 < count_type t metas) /\
      (NoDup (dict_keys st) -> NoDup (dict_keys st')).
Proof.
  induction 1 as [|m r [s Hs] _ IH]; intros st.
  - exists st. simpl. repeat split; auto.
    + intros t. unfold count_type, len; simpl. lia.
    + intros [H | H]; [exact H|]. unfold count_type, len in H; simpl in H.
      lia.
  - simpl. rewrite Hs.
    destruct (IH (dict_set s (get_or_zero s st + 1) st))
      as [st' [E [Hc [Hk Hn]]]].
    exists st'. split; [exact E|].
    assert (Ht : forall t, has_type t m = pystr_eqb s t).
    { intros t. unfold has_type. rewrite Hs. reflexivity. }
    repeat split.
    + intros t. rewrite Hc, get_or_zero_set, count_type_cons, Ht.
      destruct (pystr_eqb t s) eqn:E1.
      * apply pystr_eqb_eq in E1; subst. rewrite pystr_eqb_refl. lia.
      * destruct (pystr_eqb s t) eqn:E2; [|lia].
        apply pystr_eqb_eq in E2; subst.
        rewrite pystr_eqb_refl in E1; discriminate.
    + intros H. apply Hk in H as [H | H].
      * apply dict_set_keys_In in H as [-> | H]; [|auto].
        right. rewrite count_type_cons, Ht, pystr_eqb_refl.
        pose proof (count_type_nonneg s r). lia.
      * right. rewrite count_type_cons.
        destruct (has_type t m); lia.
    + intros [H | H]; apply Hk.
      * left. apply dict_set_keys_In; auto.
      * rewrite count_type_cons, Ht in H.
        destruct (pystr_eqb s t) eqn:E2.
        -- apply pystr_eqb_eq in E2; subst.
           left. apply dict_set_keys_In; auto.
        -- right. lia.
    + intros Hd. apply Hn, dict_set_keys_NoDup, Hd.
Qed.

(** *** The sort of the histogram *)






Lemma insert_item_perm (x : pystr * Z) (l : list (pystr * Z)) :
  Permutation (insert_item x l) (x :: l).
Proof.
  induction l as [|y r IH]; simpl; [reflexivity|].
  destruct (item_leb x y); [reflexivity|].
  rewrite IH. apply perm_swap.
Qed.

Lemma sorted_items_perm (l : list (pystr * Z)) :
  Permutation (sorted_items l) l.
Proof.
  induction l as [|x r IH]; simpl; [reflexivity|].
  rewrite insert_item_perm, IH. reflexivity.
Qed.





Lemma forallb_ready_Forall (P : dict value -> Prop)
  (metas : list (dict value)) :
  (forall m, report_ready m = true -> P m) ->
  forallb report_ready metas = true -> Forall P metas.
Proof.
  intros HP H. rewrite forallb_forall in H. apply Forall_forall.
  intros m Hm. apply HP, H, Hm.
Qed.



(** *** The report on the output of [process_all_pdfs] *)

Lemma extract_metadata_ready (env : world) (p text : pystr) :
  report_ready (fst (extract_metadata env p text)) = true.
Proof.
  unfold extract_metadata, metadata_try, text_fields.
  destruct (open_reader env p) as [rd|e]; [|reflexivity].
  destruct (num_pages rd) as [n|e]; [|reflexivity].
  destruct (doc_info rd) as [[[|kv info]|]|e]; reflexivity.
Qed.

Lemma process_loop_ready (env : world) (total : Z) (pdf_files : list pystr) :
  forall (i : Z) (ts : dict pystr) (ms : dict (dict value)),
    Forall (fun m => report_ready m = true) (dict_values ms) ->
    Forall (fun m => report_ready m = true)
      (dict_values (snd (fst (process_loop env total i pdf_files ts ms)))).
Proof.
  induction pdf_files as [|p rest IH]; intros i ts ms H; [exact H|].
  rewrite process_loop_cons.
  destruct (blank (fst (extract_text env p default_method))).
  - apply IH, H.
  - apply IH, dict_set_values_Forall; [apply extract_metadata_ready | exact H].
Qed.

(** Every run of [process_all_pdfs] yields mappings on which the report
    is produced. *)
Lemma process_all_pdfs_report (env : world) :
  exists r,
    generate_extraction_report (fst (fst (process_all_pdfs env)))
      (snd (fst (process_all_pdfs env))) = Some r.
Proof.
  assert (H : forallb report_ready
                (dict_values (snd (fst (process_all_pdfs env)))) = true).
  { apply forallb_forall. apply Forall_forall.
    unfold process_all_pdfs. destruct (glob_pdf env) as [|p0 files].
    - constructor.
    - rewrite bind_eq. cbn [fst]. apply process_loop_ready. constructor. }
  unfold generate_extraction_report.
  rewrite (sum_key_total (codes "word_count")) by
    (apply (forallb_ready_Forall _ _ (fun m Hm =>
       proj1 (proj2 (report_ready_fields m Hm))) H)).
  rewrite (sum_key_total (codes "page_count")) by
    (apply (forallb_ready_Forall _ _ (fun m Hm =>
       proj1 (proj2 (proj2 (report_ready_fields m Hm)))) H)).
  destruct (count_source_types_spec _
              (forallb_ready_Forall _ _ (fun m Hm =>
                 proj2 (proj2 (proj2 (report_ready_fields m Hm)))) H) [])
    as [st [-> _]].
  destruct (document_details_total _ H) as [ds [-> _]].
  eexists; reflexivity.
Qed.

(** * Further properties *)

(** ** Fixed points of [basic_cleaning] *)

Lemma lstrip_fix (s : pystr) : head_not_space s -> lstrip s = s.
Proof. destruct s as [|c r]; simpl; [reflexivity|]. intros ->; reflexivity. Qed.

Lemma strip_fix (s : pystr) : trimmed s -> strip s = s.
Proof.
  intros [H1 H2]. unfold strip, rstrip.
  rewrite (lstrip_fix s H1), (lstrip_fix (rev s) H2). apply rev_involutive.
Qed.

Lemma sub_ws_fix (s : pystr) :
  forall b,
    (b = true -> head_not_space s) ->
    Forall (fun c => is_space c = true -> c = SP) s ->
    no_ws_run s = true ->
    sub_ws b s = s.
Proof.
  induction s as [|c r IH]; intros b Hb Hs Hn; [reflexivity|].
  inversion Hs as [|? ? Hc Hr]; subst. cbn [sub_ws].
  assert (Hn' : no_ws_run r = true).
  { destruct r as [|d r']; [reflexivity|].
    rewrite no_ws_run_cons in Hn. apply andb_true_iff in Hn; tauto. }
  destruct (is_space c) eqn:Ec.
  - destruct b; [specialize (Hb eq_refl); simpl in Hb; congruence|].
    rewrite <- (Hc eq_refl). f_equal. apply IH; auto.
    intros _. destruct r as [|d r']; [exact I|].
    rewrite no_ws_run_cons, Ec in Hn. simpl in Hn.
    apply andb_true_iff in Hn as [Hd _]. apply negb_true_iff in Hd.
    exact Hd.
  - f_equal. apply IH; auto. discriminate.
Qed.

Lemma basic_cleaning_shape (text : pystr) :
  basic_cleaning text = strip (del_ctrl (sub_ws false text)).
Proof. unfold basic_cleaning. rewrite sub_nl_after_sub_ws. reflexivity. Qed.

Lemma basic_cleaning_no_ctrl (text : pystr) :
  Forall (fun c => is_ctrl c = false) (basic_cleaning text).
Proof. rewrite basic_cleaning_shape. apply Forall_strip, del_ctrl_clean. Qed.

Lemma basic_cleaning_only_SP (text : pystr) :
  Forall (fun c => is_space c = true -> c = SP) (basic_cleaning text).
Proof.
  rewrite basic_cleaning_shape.
  apply Forall_strip, Forall_del_ctrl, sub_ws_only_SP.
Qed.

Lemma basic_cleaning_trimmed (text : pystr) : trimmed (basic_cleaning text).
Proof. rewrite basic_cleaning_shape. apply strip_trimmed. Qed.

Lemma basic_cleaning_no_run (text : pystr) :
  (forall c, In c text -> is_ctrl c = true -> is_space c = true) ->
  no_ws_run (basic_cleaning text) = true.
Proof.
  intros H. rewrite basic_cleaning_shape. apply no_ws_run_strip.
  rewrite del_ctrl_id; [apply sub_ws_no_run|].
  eapply Forall_impl; [|apply sub_ws_chars].
  simpl; intros c [-> | [Hin Hs]]; [apply is_ctrl_SP|].
  destruct (is_ctrl c) eqn:Hc; [|reflexivity].
  rewrite (H c Hin Hc) in Hs; discriminate.
Qed.

Lemma basic_cleaning_keeps (text : pystr) :
  Forall (fun c => is_ctrl c = false) text ->
  Forall (fun c => is_space c = true -> c = SP) text ->
  trimmed text ->
  no_ws_run text = true ->
  basic_cleaning text = text.
Proof.
  intros Hc Hs Ht Hn. rewrite basic_cleaning_shape.
  rewrite (sub_ws_fix text false) by (auto; discriminate).
  rewrite (del_ctrl_id text Hc). apply strip_fix, Ht.
Qed.

(** X1: the texts [basic_cleaning] leaves unchanged are exactly those
    without a character of the deleted ranges, whose only whitespace is
    the plain space, never twice in a row, and neither first nor last. *)
Theorem basic_cleaning_fixed_point (text : pystr) :
  basic_cleaning text = text <->
  Forall (fun c => is_ctrl c = false) text /\
  Forall (fun c => is_space c = true -> c = SP) text /\
  trimmed text /\
  no_ws_run text = true.
Proof.
  split.
  - intros E.
    assert (Hc : Forall (fun c => is_ctrl c = false) text)
      by (rewrite <- E; apply basic_cleaning_no_ctrl).
    repeat split.
    + exact Hc.
    + rewrite <- E; apply basic_cleaning_only_SP.
    + rewrite <- E; apply basic_cleaning_trimmed.
    + rewrite <- E; apply basic_cleaning_trimmed.
    + rewrite <- E. apply basic_cleaning_no_run.
      rewrite Forall_forall in Hc. intros c Hin H.
      rewrite (Hc c Hin) in H; discriminate.
  - intros [Hc [Hs [Ht Hn]]]. apply basic_cleaning_keeps; assumption.
Qed.

(** X2: a second cleaning always reaches a fixed point, and the first
    one already does when every input character of the deleted ranges
    is whitespace; but cleaning is not idempotent: the cleaned form of
    ["a \x00 b"], which is ["a  b"], is cleaned again to ["a b"]. *)
Theorem basic_cleaning_settles (text : pystr) :
  basic_cleaning (basic_cleaning (basic_cleaning text))
  = basic_cleaning (basic_cleaning text) /\
  ((forall c, In c text -> is_ctrl c = true -> is_space c = true) ->
   basic_cleaning (basic_cleaning text) = basic_cleaning text) /\
  (exists s, basic_cleaning (basic_cleaning s) <> basic_cleaning s) /\
  basic_cleaning (basic_cleaning (codes "a " ++ [0x00] ++ codes " b"))
  <> basic_cleaning (codes "a " ++ [0x00] ++ codes " b").
Proof.
  assert (Fix : forall s,
             no_ws_run (basic_cleaning s) = true ->
             basic_cleaning (basic_cleaning s) = basic_cleaning s).
  { intros s Hn. apply basic_cleaning_keeps.
    - apply basic_cleaning_no_ctrl.
    - apply basic_cleaning_only_SP.
    - apply basic_cleaning_trimmed.
    - exact Hn. }
  split; [|split; [|split]].
  - apply Fix. apply basic_cleaning_no_run.
    pose proof (basic_cleaning_no_ctrl text) as Hc.
    rewrite Forall_forall in Hc. intros c Hin H.
    rewrite (Hc c Hin) in H; discriminate.
  - intros H. apply Fix, basic_cleaning_no_run, H.
  - exists (codes "a " ++ [0x00] ++ codes " b"). discriminate.
  - discriminate.
Qed.

Lemma basic_cleaning_settles_witness :
  basic_cleaning (basic_cleaning (codes "  two   words "))
  = basic_cleaning (codes "  two   words ") /\
  basic_cleaning (codes "a " ++ [0x00] ++ codes " b") = codes "a  b" /\
  basic_cleaning (basic_cleaning (codes "a " ++ [0x00] ++ codes " b"))
  = codes "a b".
Proof.
  split; [|split; reflexivity].
  apply (proj1 (proj2 (basic_cleaning_settles (codes "  two   words ")))).
  apply ctrl_is_space_check. reflexivity.
Defined.

Lemma basic_cleaning_fixed_point_witness :
  basic_cleaning (codes "agentic ai") = codes "agentic ai".
Proof.
  apply (basic_cleaning_fixed_point (codes "agentic ai")).
  repeat split; try reflexivity;
    apply Forall_forall; intros c Hc; simpl in Hc;
    repeat (destruct Hc as [<- | Hc]; [try reflexivity; discriminate|]);
    destruct Hc.
Defined.

(** ** Texts that clean to nothing *)

Lemma sub_ws_keeps (c : Z) (s : pystr) (b : bool) :
  In c s -> is_space c = false -> In c (sub_ws b s).
Proof.
  intros Hin Hc. revert b. induction s as [|d r IH]; intros b; [destruct Hin|].
  simpl. destruct Hin as [-> | Hin].
  - rewrite Hc. left; reflexivity.
  - destruct (is_space d); [destruct b|]; simpl; auto.
Qed.

Lemma space_prefix_out (c : Z) (p : pystr) :
  forallb is_space p = true -> is_space c = false -> ~ In c p.
Proof.
  intros Hp Hc Hin. rewrite forallb_forall in Hp.
  rewrite (Hp c Hin) in Hc. discriminate.
Qed.

Lemma strip_keeps (c : Z) (s : pystr) :
  In c s -> is_space c = false -> In c (strip s).
Proof.
  intros Hin Hc. unfold strip.
  destruct (lstrip_suffix s) as [p [Hp Hsp]].
  destruct (rstrip_prefix (lstrip s)) as [q [Hq Hsq]].
  rewrite Hp in Hin. apply in_app_or in Hin as [Hin | Hin];
    [destruct (space_prefix_out c p Hsp Hc Hin)|].
  rewrite Hq in Hin. apply in_app_or in Hin as [Hin | Hin];
    [exact Hin | destruct (space_prefix_out c q Hsq Hc Hin)].
Qed.

Lemma lstrip_all_space (s : pystr) :
  forallb is_space s = true -> lstrip s = [].
Proof.
  induction s as [|c r IH]; simpl; [reflexivity|].
  intros H. apply andb_true_iff in H as [-> Hr]. apply IH, Hr.
Qed.

(** X3: a text is cleaned to the empty string exactly when each of its
    characters is whitespace or belongs to the deleted ranges. *)
Theorem basic_cleaning_empty (text : pystr) :
  basic_cleaning text = [] <->
  forallb (fun c => is_space c || is_ctrl c) text = true.
Proof.
  rewrite basic_cleaning_shape. split.
  - intros E. apply forallb_forall. intros c Hin.
    destruct (is_space c) eqn:Hs; [reflexivity|].
    destruct (is_ctrl c) eqn:Hc; [reflexivity|]. exfalso.
    assert (H : In c (strip (del_ctrl (sub_ws false text)))).
    { apply strip_keeps; [|exact Hs]. apply filter_In. split.
      - apply sub_ws_keeps; assumption.
      - rewrite Hc; reflexivity. }
    rewrite E in H. destruct H.
  - intros H. rewrite forallb_forall in H. unfold strip.
    rewrite lstrip_all_space; [reflexivity|].
    apply forallb_forall. intros c Hin.
    apply filter_In in Hin as [Hin Hc]. apply negb_true_iff in Hc.
    pose proof (sub_ws_chars false text) as Hch.
    rewrite Forall_forall in Hch.
    destruct (Hch c Hin) as [-> | [Hin' Hs]]; [reflexivity|].
    specialize (H c Hin'). rewrite Hs, Hc in H. discriminate.
Qed.

Lemma basic_cleaning_empty_witness :
  basic_cleaning ([0x00; 0x0a] ++ codes "  " ++ [0x9f]) = [].
Proof.
  apply (basic_cleaning_empty ([0x00; 0x0a] ++ codes "  " ++ [0x9f])).
  reflexivity.
Defined.

(** ** What [extract_text] returns *)

Lemma extract_text_cleaned (env : world) (p method : pystr) :
  exists raw, fst (extract_text env p method) = basic_cleaning raw.
Proof.
  unfold extract_text. rewrite bind_eq. cbn [fst ret]. eexists; reflexivity.
Qed.

Lemma split_on_absent (sep : Z) (s : pystr) :
  Forall (fun c => c <> sep) s ->
  forall seg, split_on sep seg s = [seg ++ s].
Proof.
  induction 1 as [|c r Hc _ IH]; intros seg; simpl.
  - rewrite app_nil_r; reflexivity.
  - apply Z.eqb_neq in Hc. rewrite Hc, IH, <- app_assoc. reflexivity.
Qed.

Lemma cleaned_no_newline (raw : pystr) :
  Forall (fun c => c <> NL) (basic_cleaning raw).
Proof.
  eapply Forall_impl; [|apply basic_cleaning_only_SP].
  simpl; intros c Hc E; subst c. specialize (Hc eq_refl). discriminate.
Qed.

(** X4: whatever the method and the backends, the text returned by
    [extract_text] has no leading or trailing whitespace, no newline and
    no character of the deleted ranges; it is blank only when it is
    empty, and [split('\n')] finds a single line in it. *)
Theorem extract_text_output (env : world) (pdf_path method : pystr) :
  let text := fst (extract_text env pdf_path method) in
  trimmed text /\
  Forall (fun c => c <> NL) text /\
  Forall (fun c => is_ctrl c = false) text /\
  blank text = is_empty text /\
  split_on NL [] text = [text].
Proof.
  intros text. subst text.
  destruct (extract_text_cleaned env pdf_path method) as [raw ->].
  split; [apply basic_cleaning_trimmed|].
  split; [apply cleaned_no_newline|].
  split; [apply basic_cleaning_no_ctrl|].
  split.
  - unfold blank. rewrite strip_fix; [reflexivity|].
    apply basic_cleaning_trimmed.
  - apply (split_on_absent NL _ (cleaned_no_newline raw) []).
Qed.

(** ** Entries of the corpus *)

Lemma extract_metadata_fields (env : world) (p text : pystr) :
  let md := fst (extract_metadata env p text) in
  dict_get (codes "filename") md = Some (VStr p) /\
  dict_get (codes "file_size_mb") md = Some (VSizeMb (st_size env p)) /\
  dict_get (codes "extraction_date") md = Some (VStr (now_iso env p)) /\
  dict_get (codes "char_count") md = Some (VInt (len text)) /\
  dict_get (codes "word_count") md = Some (VInt (len (split_ws [] text))) /\
  dict_get (codes "line_count") md
  = Some (VInt (len (split_on NL [] text))) /\
  dict_get (codes "source_type") md
  = Some (VStr (detect_source_type (str_lower env p))).
Proof.
  unfold extract_metadata, metadata_try, text_fields.
  destruct (open_reader env p) as [rd|e]; [|repeat split].
  destruct (num_pages rd) as [n|e]; [|repeat split].
  destruct (doc_info rd) as [[[|kv info]|]|e]; repeat split.
Qed.

Lemma split_ws_nil (s : pystr) :
  forall tok, split_ws tok s = [] -> tok = [] /\ forallb is_space s = true.
Proof.
  induction s as [|c r IH]; intros tok; simpl.
  - destruct tok; [auto | discriminate].
  - destruct (is_space c).
    + destruct tok; simpl; [|discriminate].
      intros H. destruct (IH [] H); auto.
    + intros H. destruct (IH _ H) as [Ht _].
      destruct tok; discriminate.
Qed.

Lemma nonblank_has_word (t : pystr) :
  blank t = false -> 1 <= len (split_ws [] t).
Proof.
  intros Hb. destruct (split_ws [] t) as [|w ws] eqn:E.
  - apply split_ws_nil in E as [_ E]. unfold blank, strip in Hb.
    rewrite (lstrip_all_space t E) in Hb. discriminate.
  - unfold len; simpl List.length; lia.
Qed.

Lemma nonblank_has_char (t : pystr) : blank t = false -> 1 <= len t.
Proof.
  destruct t; [discriminate|]. intros _. unfold len; simpl List.length; lia.
Qed.

(** Every stored pair comes from one listed file. *)
Lemma process_loop_paired (env : world) (total : Z) (all : list pystr)
  (pdf_files : list pystr) :
  forall (i : Z) (ts : dict pystr) (ms : dict (dict value)),
    incl pdf_files all ->
    (forall k t, dict_get k ts = Some t ->
       exists p, In p all /\ contributes env k p /\
                 t = fst (extract_text env p default_method) /\
                 dict_get k ms = Some (fst (extract_metadata env p t))) ->
    let out := fst (process_loop env total i pdf_files ts ms) in
    forall k t, dict_get k (fst out) = Some t ->
      exists p, In p all /\ contributes env k p /\
                t = fst (extract_text env p default_method) /\
                dict_get k (snd out) = Some (fst (extract_metadata env p t)).
Proof.
  induction pdf_files as [|p rest IH]; intros i ts ms Hall Hinv; [exact Hinv|].
  cbv zeta. rewrite process_loop_cons.
  assert (Hrest : incl rest all) by (intros x Hx; apply Hall; right; exact Hx).
  destruct (blank (fst (extract_text env p default_method))) eqn:Eb.
  - apply IH; assumption.
  - apply IH; [assumption|]. intros k t Hk.
    destruct (pystr_eqb k (stem p)) eqn:E.
    + apply pystr_eqb_eq in E; subst k.
      rewrite dict_get_set_same in Hk. injection Hk as <-.
      exists p. split; [apply Hall; left; reflexivity|].
      split; [split; [reflexivity | exact Eb]|].
      split; [reflexivity | apply dict_get_set_same].
    + apply pystr_eqb_neq in E.
      rewrite dict_get_set_other in Hk by exact E.
      destruct (Hinv k t Hk) as [q [Hq [Hc [Ht Hm]]]].
      exists q. repeat split; try apply Hc; auto.
      rewrite dict_get_set_other by exact E. exact Hm.
Qed.

Lemma process_all_pdfs_paired (env : world) :
  forall k t,
    dict_get k (fst (fst (process_all_pdfs env))) = Some t ->
    exists p, In p (glob_pdf env) /\ contributes env k p /\
              t = fst (extract_text env p default_method) /\
              dict_get k (snd (fst (process_all_pdfs env)))
              = Some (fst (extract_metadata env p t)).
Proof.
  unfold process_all_pdfs. destruct (glob_pdf env) as [|p0 files] eqn:Eg.
  - simpl. discriminate.
  - rewrite bind_eq. cbn [fst].
    apply (process_loop_paired env _ (p0 :: files) (p0 :: files) 1 [] []).
    + apply incl_refl.
    + simpl. discriminate.
Qed.

(** X5: each text stored by [process_all_pdfs] under a key sits beside
    the metadata of the same listed file, whose stem is the key: the
    metadata's [filename] is that file, its [char_count] is the length
    of the stored text and at least 1, its [word_count] is the text's
    number of words and at least 1, and its [line_count] is 1. *)
Theorem process_all_pdfs_entries (env : world) (k t : pystr) :
  dict_get k (fst (fst (process_all_pdfs env))) = Some t ->
  exists p md,
    In p (glob_pdf env) /\ stem p = k /\
    t = fst (extract_text env p default_method) /\
    dict_get k (snd (fst (process_all_pdfs env))) = Some md /\
    md = fst (extract_metadata env p t) /\
    dict_get (codes "filename") md = Some (VStr p) /\
    dict_get (codes "char_count") md = Some (VInt (len t)) /\
    1 <= len t /\
    dict_get (codes "word_count") md = Some (VInt (len (split_ws [] t))) /\
    1 <= len (split_ws [] t) /\
    dict_get (codes "line_count") md = Some (VInt 1).
Proof.
  intros Hk.
  destruct (process_all_pdfs_paired env k t Hk) as [p [Hp [[Hs Hb] [Ht Hm]]]].
  destruct (extract_metadata_fields env p t) as [F1 [_ [_ [F4 [F5 [F6 _]]]]]].
  exists p, (fst (extract_metadata env p t)).
  rewrite <- Ht in Hb.
  repeat split; auto using nonblank_has_char, nonblank_has_word.
  rewrite F6. rewrite Ht.
  destruct (extract_text_cleaned env p default_method) as [raw ->].
  rewrite (split_on_absent NL _ (cleaned_no_newline raw) []). reflexivity.
Qed.

Lemma process_all_pdfs_entries_witness :
  exists p md,
    In p (glob_pdf sample_world) /\ stem p = codes "scan" /\
    dict_get (codes "scan") (snd (fst (process_all_pdfs sample_world)))
    = Some md /\
    dict_get (codes "word_count") md = Some (VInt 2) /\
    dict_get (codes "line_count") md = Some (VInt 1).
Proof.
  destruct (process_all_pdfs_entries sample_world (codes "scan")
              (codes "page one") eq_refl)
    as [p [md [H1 [H2 [_ [H4 [_ [_ [_ [_ [H9 [_ H11]]]]]]]]]]]].
  exists p, md. repeat split; assumption.
Defined.

(** ** Stems *)

Lemma rfind_absent (c : Z) (s : pystr) : ~ In c s -> rfind c s = None.
Proof.
  induction s as [|d r IH]; simpl; [reflexivity|].
  intros H. rewrite IH by tauto.
  destruct (Z.eqb_spec d c); [exfalso; apply H; auto | reflexivity].
Qed.

Lemma rfind_last (c : Z) (a r : pystr) :
  ~ In c r -> rfind c (a ++ c :: r) = Some (List.length a).
Proof.
  intros H. induction a as [|d a IH]; simpl.
  - rewrite (rfind_absent c r H), Z.eqb_refl. reflexivity.
  - rewrite IH. reflexivity.
Qed.

Lemma rfind_bound (c : Z) (s : pystr) (i : nat) :
  rfind c s = Some i -> (i < List.length s)%nat.
Proof.
  revert i; induction s as [|d r IH]; intros i; simpl; [discriminate|].
  destruct (rfind c r) as [j|].
  - intros [= <-]. specialize (IH j eq_refl). lia.
  - destruct (d =? c); [intros [= <-]; lia | discriminate].
Qed.

(** The stem of [base.pdf] is [base] when [base] is not empty, so
    that listed names [base.pdf] with different non-empty bases get
    different keys; the name [.pdf] is its own stem, a name without a
    dot too, and a stem is always a prefix of the name. *)
Theorem stem_of_pdf_name :
  (forall base, base <> [] -> stem (base ++ codes ".pdf") = base) /\
  stem (codes ".pdf") = codes ".pdf" /\
  (forall name, ~ In 0x2e name -> stem name = name) /\
  (forall name, exists ext, name = stem name ++ ext).
Proof.
  split; [|split; [reflexivity | split]].
  - intros base Hb. unfold stem.
    change (codes ".pdf") with (0x2e :: codes "pdf").
    rewrite rfind_last by (simpl; intros [H | [H | [H | []]]]; discriminate).
    rewrite length_app. simpl List.length.
    assert (Hl : (0 < List.length base)%nat)
      by (destruct base; [congruence | simpl; lia]).
    replace ((0 <? List.length base)%nat) with true
      by (symmetry; apply Nat.ltb_lt; exact Hl).
    replace ((List.length base <? List.length base + 4 - 1)%nat) with true
      by (symmetry; apply Nat.ltb_lt; lia).
    simpl. rewrite firstn_app, Nat.sub_diag, firstn_all. simpl.
    apply app_nil_r.
  - intros name H. unfold stem. rewrite (rfind_absent _ _ H). reflexivity.
  - intros name. unfold stem. destruct (rfind 0x2e name) as [i|].
    + destruct ((0 <? i)%nat && (i <? List.length name - 1)%nat).
      * exists (skipn i name). symmetry. apply firstn_skipn.
      * exists []. symmetry. apply app_nil_r.
    + exists []. symmetry. apply app_nil_r.
Qed.

Lemma stem_of_pdf_name_witness :
  stem (codes "q3.report" ++ codes ".pdf") = codes "q3.report" /\
  stem (codes "README") = codes "README".
Proof.
  split.
  - apply (proj1 stem_of_pdf_name). discriminate.
  - apply (proj1 (proj2 (proj2 stem_of_pdf_name))).
    simpl. intros H. repeat (destruct H as [H | H]; [discriminate|]).
    exact H.
Defined.

(** ** Distinct stems *)

(** Keys that are the stem of no file still to process keep their
    values. *)
Lemma process_loop_untouched (env : world) (total : Z)
  (pdf_files : list pystr) (k : pystr) :
  ~ In k (map stem pdf_files) ->
  forall (i : Z) (ts : dict pystr) (ms : dict (dict value)),
    dict_get k (fst (fst (process_loop env total i pdf_files ts ms)))
    = dict_get k ts /\
    dict_get k (snd (fst (process_loop env total i pdf_files ts ms)))
    = dict_get k ms.
Proof.
  induction pdf_files as [|p rest IH]; intros Hk i ts ms; [auto|].
  simpl in Hk. rewrite process_loop_cons.
  assert (Hr : ~ In k (map stem rest)) by tauto.
  assert (Hp : k <> stem p) by (intros ->; apply Hk; auto).
  destruct (blank (fst (extract_text env p default_method))).
  - apply IH, Hr.
  - destruct (IH Hr (i + 1)
                (dict_set (stem p) (fst (extract_text env p default_method))
                   ts)
                (dict_set (stem p)
                   (fst (extract_metadata env p
                           (fst (extract_text env p default_method)))) ms))
      as [H1 H2].
    rewrite H1, H2, !dict_get_set_other by exact Hp. auto.
Qed.

Lemma dict_set_length_fresh {V : Type} (k : pystr) (v : V) (d : dict V) :
  ~ In k (dict_keys d) ->
  List.length (dict_set k v d) = S (List.length d).
Proof.
  induction d as [|[k' v'] r IH]; simpl; [reflexivity|].
  intros H. destruct (pystr_eqb k k') eqn:E.
  - apply pystr_eqb_eq in E. exfalso; apply H; auto.
  - simpl. rewrite IH by tauto. reflexivity.
Qed.

Lemma process_loop_distinct (env : world) (total : Z)
  (pdf_files : list pystr) :
  NoDup (map stem pdf_files) ->
  forall (i : Z) (ts : dict pystr) (ms : dict (dict value)),
    (forall p, In p pdf_files -> ~ In (stem p) (dict_keys ts)) ->
    let out := fst (process_loop env total i pdf_files ts ms) in
    (forall p, In p pdf_files -> stored env p = true ->
       dict_get (stem p) (fst out)
       = Some (fst (extract_text env p default_method)) /\
       dict_get (stem p) (snd out)
       = Some (fst (extract_metadata env p
                      (fst (extract_text env p default_method))))) /\
    List.length (fst out)
    = (List.length ts + List.length (filter (stored env) pdf_files))%nat.
Proof.
  induction pdf_files as [|p rest IH]; intros Hnd i ts ms Hfresh.
  - simpl. split; [intros p []|]. lia.
  - inversion Hnd as [|? ? Hp Hrest]; subst. cbv zeta.
    rewrite process_loop_cons. cbn [filter].
    assert (Hst : stored env p
                  = negb (blank (fst (extract_text env p default_method))))
      by reflexivity.
    rewrite Hst.
    destruct (blank (fst (extract_text env p default_method))) eqn:Eb;
      cbn [negb].
    + destruct (IH Hrest (i + 1) ts ms) as [H1 H2].
      { intros q Hq. apply Hfresh; right; exact Hq. }
      split; [|exact H2].
      intros q [<- | Hq] Hs; [|apply H1; assumption].
      unfold stored in Hs. rewrite Eb in Hs. discriminate.
    + set (text := fst (extract_text env p default_method)) in *.
      set (md := fst (extract_metadata env p text)).
      destruct (IH Hrest (i + 1) (dict_set (stem p) text ts)
                  (dict_set (stem p) md ms)) as [H1 H2].
      { intros q Hq Hin. apply dict_set_keys_In in Hin as [Hin | Hin].
        - apply Hp. rewrite <- Hin. apply in_map. exact Hq.
        - apply (Hfresh q); [right; exact Hq | exact Hin]. }
      split.
      * intros q [<- | Hq] Hs; [|apply H1; assumption].
        destruct (process_loop_untouched env total rest (stem p) Hp (i + 1)
                    (dict_set (stem p) text ts) (dict_set (stem p) md ms))
          as [-> ->].
        rewrite !dict_get_set_same. auto.
      * rewrite H2, dict_set_length_fresh by (apply Hfresh; left; reflexivity).
        simpl. lia.
Qed.

(** X7: when the listed files have pairwise different stems, every
    file whose extracted text is not blank is stored under its stem,
    with its own text and its own metadata, and the corpus has as many
    documents as there are such files. *)
Theorem process_all_pdfs_distinct_stems (env : world) :
  NoDup (map stem (glob_pdf env)) ->
  (forall p, In p (glob_pdf env) -> stored env p = true ->
     dict_get (stem p) (fst (fst (process_all_pdfs env)))
     = Some (fst (extract_text env p default_method)) /\
     dict_get (stem p) (snd (fst (process_all_pdfs env)))
     = Some (fst (extract_metadata env p
                    (fst (extract_text env p default_method))))) /\
  len (fst (fst (process_all_pdfs env)))
  = len (filter (stored env) (glob_pdf env)).
Proof.
  intros Hnd. unfold process_all_pdfs.
  destruct (glob_pdf env) as [|p0 files] eqn:Eg.
  - split; [intros p []|reflexivity].
  - rewrite bind_eq. cbn [fst].
    destruct (process_loop_distinct env (len (p0 :: files)) (p0 :: files)
                Hnd 1 [] []) as [H1 H2].
    { intros p _ []. }
    split; [exact H1|]. unfold len. f_equal. exact H2.
Qed.

Lemma process_all_pdfs_distinct_stems_witness :
  dict_get (codes "scan") (fst (fst (process_all_pdfs sample_world)))
  = Some (codes "page one") /\
  len (fst (fst (process_all_pdfs sample_world))) = 2.
Proof.
  assert (Hnd : NoDup (map stem (glob_pdf sample_world))).
  { simpl. repeat constructor; simpl; intros H;
      repeat (destruct H as [H | H]; [discriminate|]); exact H. }
  destruct (process_all_pdfs_distinct_stems sample_world Hnd) as [H1 H2].
  split.
  - apply (H1 (codes "scan.pdf")); [simpl; tauto | reflexivity].
  - exact H2.
Defined.

(** ** Backend calls of a run *)

Lemma extract_text_default_trace (env : world) (p : pystr) :
  snd (extract_text env p default_method)
  = snd (extract_with_pdfplumber env p) ++
    (if blank (fst (extract_with_pdfplumber env p))
     then Print (FallbackToPyPDF2 p) :: snd (extract_with_pypdf2 env p)
     else []).
Proof.
  unfold extract_text, default_method.
  rewrite pystr_eqb_refl, !bind_eq. unfold blank.
  destruct (is_empty (strip (fst (extract_with_pdfplumber env p))));
    cbn [fst snd ret print emit]; rewrite ?app_nil_r; reflexivity.
Qed.

Lemma strategies_no_metadata (env : world) (p : pystr) :
  count_events is_open_for_metadata (snd (extract_with_pdfplumber env p))
  = 0%nat /\
  count_events is_open_for_metadata (snd (extract_with_pypdf2 env p))
  = 0%nat.
Proof.
  unfold extract_with_pdfplumber, extract_with_pypdf2.
  destruct (pdfplumber_try env p) as [t1 [e1|]];
    destruct (pypdf2_try env p) as [t2 [e2|]]; split; reflexivity.
Qed.

Lemma extract_text_default_counts (env : world) (p : pystr) :
  count_events is_call_pdfplumber (snd (extract_text env p default_method))
  = 1%nat /\
  count_events is_call_pypdf2 (snd (extract_text env p default_method))
  = (if blank (fst (extract_with_pdfplumber env p)) then 1 else 0)%nat /\
  count_events is_open_for_metadata
    (snd (extract_text env p default_method)) = 0%nat.
Proof.
  rewrite extract_text_default_trace.
  destruct (pdfplumber_calls env p) as [P1 [P2 _]].
  destruct (pypdf2_calls env p) as [S1 S2].
  destruct (strategies_no_metadata env p) as [M1 M2].
  rewrite !count_events_app, P1, P2, M1.
  destruct (blank (fst (extract_with_pdfplumber env p))).
  - change (Print ?m :: ?t) with ([Print m] ++ t).
    rewrite !count_events_app, S1, S2, M2. repeat split.
  - repeat split.
Qed.

Lemma extract_metadata_counts (env : world) (p text : pystr) :
  count_events is_call_pdfplumber (snd (extract_metadata env p text))
  = 0%nat /\
  count_events is_call_pypdf2 (snd (extract_metadata env p text)) = 0%nat /\
  count_events is_open_for_metadata (snd (extract_metadata env p text))
  = 1%nat.
Proof.
  unfold extract_metadata.
  destruct (metadata_try env p (text_fields env p text)) as [md [e|]];
    repeat split.
Qed.

Lemma process_loop_trace (env : world) (total i : Z) (p : pystr)
  (rest : list pystr) (ts : dict pystr) (ms : dict (dict value)) :
  exists prints1 prints2,
    forallb (fun e => match e with Print _ => true | _ => false end)
      (prints1 ++ prints2) = true /\
    snd (process_loop env total i (p :: rest) ts ms)
    = prints1 ++ snd (extract_text env p default_method) ++
      (if blank (fst (extract_text env p default_method))
       then prints2 ++ snd (process_loop env total (i + 1) rest ts ms)
       else snd (extract_metadata env p
                   (fst (extract_text env p default_method))) ++
            prints2 ++
            snd (process_loop env total (i + 1) rest
                   (dict_set (stem p)
                      (fst (extract_text env p default_method)) ts)
                   (dict_set (stem p)
                      (fst (extract_metadata env p
                              (fst (extract_text env p default_method))))
                      ms))).
Proof.
  cbn [process_loop]. rewrite !bind_eq. cbn [fst snd print emit]. unfold blank.
  destruct (is_empty (strip (fst (extract_text env p default_method)))).
  - exists [Print (Processing i total p)], [Print WarnNoText].
    split; [reflexivity|]. rewrite ?bind_eq. cbn [fst snd print emit].
    reflexivity.
  - set (md := fst (extract_metadata env p
                      (fst (extract_text env p default_method)))).
    exists [Print (Processing i total p)],
      [Print (WordsExtracted (dict_get (codes "word_count") md));
       Print (PagesAndType (dict_get (codes "page_count") md)
                (dict_get (codes "source_type") md))].
    split; [reflexivity|]. rewrite ?bind_eq. cbn [fst snd print emit].
    rewrite <- ?app_assoc. reflexivity.
Qed.

Lemma count_events_prints (f : event -> bool) (t : list event) :
  (forall m, f (Print m) = false) ->
  forallb (fun e => match e with Print _ => true | _ => false end) t = true ->
  count_events f t = 0%nat.
Proof.
  intros Hf. unfold count_events. induction t as [|e r IH]; [reflexivity|].
  simpl. intros H. apply andb_true_iff in H as [He Hr].
  destruct e; try discriminate. rewrite Hf. apply IH, Hr.
Qed.

Lemma process_loop_counts (env : world) (total : Z) (pdf_files : list pystr) :
  forall (i : Z) (ts : dict pystr) (ms : dict (dict value)),
    let t := snd (process_loop env total i pdf_files ts ms) in
    count_events is_call_pdfplumber t = List.length pdf_files /\
    count_events is_call_pypdf2 t
    = List.length
        (filter (fun p => blank (fst (extract_with_pdfplumber env p)))
           pdf_files) /\
    count_events is_open_for_metadata t
    = List.length (filter (stored env) pdf_files).
Proof.
  induction pdf_files as [|p rest IH]; intros i ts ms; [repeat split|].
  cbv zeta.
  destruct (process_loop_trace env total i p rest ts ms)
    as [pr1 [pr2 [Hpr ->]]].
  rewrite forallb_app in Hpr. apply andb_true_iff in Hpr as [Hp1 Hp2].
  destruct (extract_text_default_counts env p) as [T1 [T2 T3]].
  cbn [filter List.length].
  assert (Hst : stored env p
                = negb (blank (fst (extract_text env p default_method))))
    by reflexivity.
  rewrite Hst.
  destruct (blank (fst (extract_text env p default_method))); cbn [negb].
  - destruct (IH (i + 1) ts ms) as [H1 [H2 H3]].
    rewrite !count_events_app, T1, T2, T3, H1, H2, H3.
    rewrite !(count_events_prints _ pr1), !(count_events_prints _ pr2)
      by (auto; intros m; reflexivity).
    destruct (blank (fst (extract_with_pdfplumber env p)));
      repeat split; simpl; lia.
  - match goal with
    | |- context [process_loop env total (i + 1) rest ?a ?b] =>
        destruct (IH (i + 1) a b) as [H1 [H2 H3]]
    end.
    destruct (extract_metadata_counts env p
                (fst (extract_text env p default_method))) as [M1 [M2 M3]].
    rewrite !count_events_app, T1, T2, T3, M1, M2, M3, H1, H2, H3.
    rewrite !(count_events_prints _ pr1), !(count_events_prints _ pr2)
      by (auto; intros m; reflexivity).
    destruct (blank (fst (extract_with_pdfplumber env p)));
      repeat split; simpl; lia.
Qed.

Lemma names_of_app (kind : event -> option pystr) (a b : list event) :
  names_of kind (a ++ b) = names_of kind a ++ names_of kind b.
Proof.
  induction a as [|e a IH]; simpl; [reflexivity|].
  destruct (kind e); simpl; rewrite IH; reflexivity.
Qed.

Lemma names_of_prints (kind : event -> option pystr) (t : list event) :
  (forall m, kind (Print m) = None) ->
  forallb (fun e => match e with Print _ => true | _ => false end) t = true ->
  names_of kind t = [].
Proof.
  intros Hk. induction t as [|e r IH]; [reflexivity|].
  simpl. intros H. apply andb_true_iff in H as [He Hr].
  destruct e; try discriminate. rewrite Hk. apply IH, Hr.
Qed.

Lemma strategies_names (env : world) (p : pystr) :
  names_of pdfplumber_call (snd (extract_with_pdfplumber env p)) = [p] /\
  names_of pypdf2_call (snd (extract_with_pdfplumber env p)) = [] /\
  names_of metadata_open (snd (extract_with_pdfplumber env p)) = [] /\
  names_of pdfplumber_call (snd (extract_with_pypdf2 env p)) = [] /\
  names_of pypdf2_call (snd (extract_with_pypdf2 env p)) = [p] /\
  names_of metadata_open (snd (extract_with_pypdf2 env p)) = [].
Proof.
  unfold extract_with_pdfplumber, extract_with_pypdf2.
  destruct (pdfplumber_try env p) as [t1 [e1|]];
    destruct (pypdf2_try env p) as [t2 [e2|]]; repeat split.
Qed.

Lemma extract_text_default_names (env : world) (p : pystr) :
  names_of pdfplumber_call (snd (extract_text env p default_method)) = [p] /\
  names_of pypdf2_call (snd (extract_text env p default_method))
  = (if blank (fst (extract_with_pdfplumber env p)) then [p] else []) /\
  names_of metadata_open (snd (extract_text env p default_method)) = [].
Proof.
  rewrite extract_text_default_trace, !names_of_app.
  destruct (strategies_names env p) as [P1 [P2 [P3 [S1 [S2 S3]]]]].
  rewrite P1, P2, P3.
  destruct (blank (fst (extract_with_pdfplumber env p)));
    cbn [names_of pdfplumber_call pypdf2_call metadata_open];
    rewrite ?S1, ?S2, ?S3; repeat split.
Qed.

Lemma extract_metadata_names (env : world) (p text : pystr) :
  names_of pdfplumber_call (snd (extract_metadata env p text)) = [] /\
  names_of pypdf2_call (snd (extract_metadata env p text)) = [] /\
  names_of metadata_open (snd (extract_metadata env p text)) = [p].
Proof.
  unfold extract_metadata.
  destruct (metadata_try env p (text_fields env p text)) as [md [e|]];
    repeat split.
Qed.

Lemma process_loop_names (env : world) (total : Z) (pdf_files : list pystr) :
  forall (i : Z) (ts : dict pystr) (ms : dict (dict value)),
    let t := snd (process_loop env total i pdf_files ts ms) in
    names_of pdfplumber_call t = pdf_files /\
    names_of pypdf2_call t
    = filter (fun p => blank (fst (extract_with_pdfplumber env p)))
        pdf_files /\
    names_of metadata_open t = filter (stored env) pdf_files.
Proof.
  induction pdf_files as [|p rest IH]; intros i ts ms; [repeat split|].
  cbv zeta.
  destruct (process_loop_trace env total i p rest ts ms)
    as [pr1 [pr2 [Hpr ->]]].
  rewrite forallb_app in Hpr. apply andb_true_iff in Hpr as [Hp1 Hp2].
  destruct (extract_text_default_names env p) as [T1 [T2 T3]].
  cbn [filter].
  assert (Hst : stored env p
                = negb (blank (fst (extract_text env p default_method))))
    by reflexivity.
  rewrite Hst.
  destruct (blank (fst (extract_text env p default_method))); cbn [negb].
  - destruct (IH (i + 1) ts ms) as [H1 [H2 H3]].
    rewrite !names_of_app, T1, T2, T3, H1, H2, H3.
    rewrite !(names_of_prints _ pr1), !(names_of_prints _ pr2)
      by (auto; intros m; reflexivity).
    destruct (blank (fst (extract_with_pdfplumber env p))); repeat split.
  - match goal with
    | |- context [process_loop env total (i + 1) rest ?a ?b] =>
        destruct (IH (i + 1) a b) as [H1 [H2 H3]]
    end.
    destruct (extract_metadata_names env p
                (fst (extract_text env p default_method))) as [M1 [M2 M3]].
    rewrite !names_of_app, T1, T2, T3, M1, M2, M3, H1, H2, H3.
    rewrite !(names_of_prints _ pr1), !(names_of_prints _ pr2)
      by (auto; intros m; reflexivity).
    destruct (blank (fst (extract_with_pdfplumber env p))); repeat split.
Qed.

(** X8: in a run of [process_all_pdfs], the files passed to the
    pdfplumber strategy are the listed files, each once, in the order of
    the listing; those passed to the PyPDF2 strategy are the listed
    files whose pdfplumber text is blank, each once, in that order;
    those re-opened for their metadata are the listed files whose
    extracted text is not blank, each once, in that order. *)
Theorem process_all_pdfs_calls (env : world) :
  let t := snd (process_all_pdfs env) in
  (names_of pdfplumber_call t = glob_pdf env /\
   names_of pypdf2_call t
   = filter (fun p => blank (fst (extract_with_pdfplumber env p)))
       (glob_pdf env) /\
   names_of metadata_open t = filter (stored env) (glob_pdf env)) /\
  (count_events is_call_pdfplumber t = List.length (glob_pdf env) /\
   count_events is_call_pypdf2 t
   = List.length
       (filter (fun p => blank (fst (extract_with_pdfplumber env p)))
          (glob_pdf env)) /\
   count_events is_open_for_metadata t
   = List.length (filter (stored env) (glob_pdf env))).
Proof.
  unfold process_all_pdfs. destruct (glob_pdf env) as [|p0 files] eqn:Eg.
  - repeat split.
  - rewrite bind_eq. cbn [fst snd print emit]. split.
    + apply (process_loop_names env (len (p0 :: files)) (p0 :: files)
               1 [] []).
    + apply (process_loop_counts env (len (p0 :: files)) (p0 :: files)
               1 [] []).
Qed.

(** ** [extract_metadata] without failure *)

(** X9: when the re-opening, the page count and the document information
    are read without failure, [extract_metadata] prints nothing and
    stores the page count; the keys [title], [author], [subject] and
    [creator] are set, each to the entry of the document information or
    to the empty string when the entry is missing, exactly when the
    document information has an entry at all; they are absent when it
    is [None] or empty. *)
Theorem extract_metadata_on_success (env : world) (pdf_path text : pystr)
  (pdf_reader : reader) (n : Z) (info : option (dict pystr)) :
  open_reader env pdf_path = Ok pdf_reader ->
  num_pages pdf_reader = Ok n ->
  doc_info pdf_reader = Ok info ->
  let run := extract_metadata env pdf_path text in
  snd run = [OpenForMetadata pdf_path] /\
  dict_get (codes "page_count") (fst run) = Some (VInt n) /\
  match info with
  | Some (entry :: more) =>
      dict_get (codes "title") (fst run)
      = Some (VStr (get_or_empty (codes "/Title") (entry :: more))) /\
      dict_get (codes "author") (fst run)
      = Some (VStr (get_or_empty (codes "/Author") (entry :: more))) /\
      dict_get (codes "subject") (fst run)
      = Some (VStr (get_or_empty (codes "/Subject") (entry :: more))) /\
      dict_get (codes "creator") (fst run)
      = Some (VStr (get_or_empty (codes "/Creator") (entry :: more)))
  | _ =>
      has_key (codes "title") (fst run) = false /\
      has_key (codes "author") (fst run) = false /\
      has_key (codes "subject") (fst run) = false /\
      has_key (codes "creator") (fst run) = false
  end.
Proof.
  intros H1 H2 H3. unfold extract_metadata, metadata_try, text_fields.
  rewrite H1, H2, H3. destruct info as [[|entry more]|]; repeat split.
Qed.

Lemma extract_metadata_on_success_witness :
  dict_get (codes "title")
    (fst (extract_metadata sample_world (codes "deloitte_wef_report.pdf")
            (codes "Agentic AI")))
  = Some (VStr (codes "Agentic AI")) /\
  dict_get (codes "author")
    (fst (extract_metadata sample_world (codes "deloitte_wef_report.pdf")
            (codes "Agentic AI")))
  = Some (VStr []).
Proof.
  destruct (extract_metadata_on_success sample_world
              (codes "deloitte_wef_report.pdf") (codes "Agentic AI")
              sample_reader 2 (Some [(codes "/Title", codes "Agentic AI")])
              eq_refl eq_refl eq_refl) as [_ [_ [T [A _]]]].
  split; [exact T | exact A].
Defined.

(** ** More on the report *)

Lemma document_details_spec (md : dict (dict value)) (ds : list detail) :
  document_details md = Some ds ->
  map Some ds = map detail_of (dict_values md).
Proof.
  revert ds; induction md as [|[k meta] r IH]; intros ds; simpl.
  - intros [= <-]. reflexivity.
  - unfold detail_of.
    destruct (dict_get (codes "filename") meta) as [f|]; [|discriminate].
    destruct (dict_get (codes "word_count") meta) as [[w| |]|];
      try discriminate.
    destruct (dict_get (codes "page_count") meta) as [[p| |]|];
      try discriminate.
    destruct (dict_get (codes "source_type") meta) as [[|t|]|];
      try discriminate.
    destruct (document_details r) as [ds'|]; [|discriminate].
    intros [= <-]. simpl. rewrite (IH ds' eq_refl). reflexivity.
Qed.

Lemma count_bump_sum (s : pystr) (st : dict Z) :
  sum_Z (dict_values (dict_set s (get_or_zero s st + 1) st))
  = sum_Z (dict_values st) + 1.
Proof.
  unfold get_or_zero. induction st as [|[k v] r IH]; simpl; [reflexivity|].
  destruct (pystr_eqb s k); simpl; [lia|]. rewrite IH. lia.
Qed.

Lemma count_source_types_sum (metas : list (dict value)) :
  forall st st',
    count_source_types metas st = Some st' ->
    sum_Z (dict_values st') = sum_Z (dict_values st) + len metas.
Proof.
  induction metas as [|m r IH]; intros st st'; simpl.
  - intros [= <-]. unfold len; simpl. lia.
  - destruct (dict_get (codes "source_type") m) as [[|s|]|];
      try discriminate.
    intros H. rewrite (IH _ _ H), count_bump_sum.
    unfold len; simpl List.length. lia.
Qed.

Lemma sum_Z_perm (l l' : list (pystr * Z)) :
  Permutation l l' -> sum_Z (map snd l) = sum_Z (map snd l').
Proof.
  induction 1; simpl; lia.
Qed.

(** X10: in a report that is produced, the document details list the
    entries of [metadata_dict] one by one, in the order of the mapping,
    each with its own filename, word count, page count and source type,
    and the counts of the distribution add up to the number of
    entries. *)
Theorem report_details_and_histogram (texts : dict pystr)
  (metadata_dict : dict (dict value)) (r : report) :
  generate_extraction_report texts metadata_dict = Some r ->
  map Some (r_details r) = map detail_of (dict_values metadata_dict) /\
  List.length (r_details r) = List.length metadata_dict /\
  sum_Z (map snd (r_distribution r)) = len metadata_dict.
Proof.
  unfold generate_extraction_report.
  destruct (sum_key (codes "word_count") (dict_values metadata_dict) 0)
    as [tw|]; [|discriminate].
  destruct (sum_key (codes "page_count") (dict_values metadata_dict) 0)
    as [tp|]; [|discriminate].
  destruct (count_source_types (dict_values metadata_dict) [])
    as [st|] eqn:Es; [|discriminate].
  destruct (document_details metadata_dict) as [ds|] eqn:Ed; [|discriminate].
  intros [= <-]. cbn [r_details r_distribution].
  pose proof (document_details_spec _ _ Ed) as Hd.
  split; [exact Hd|]. split.
  - apply (f_equal (@List.length _)) in Hd. unfold dict_values in Hd.
    rewrite !length_map in Hd. exact Hd.
  - rewrite (sum_Z_perm _ _ (sorted_items_perm st)).
    change (map snd st) with (dict_values st).
    rewrite (count_source_types_sum _ _ _ Es). simpl.
    unfold len, dict_values. rewrite length_map. reflexivity.
Qed.

Lemma report_details_and_histogram_witness :
  exists r,
    generate_extraction_report sample_texts sample_metas = Some r /\
    List.length (r_details r) = 3%nat /\
    sum_Z (map snd (r_distribution r)) = 3.
Proof.
  eexists. split; [reflexivity|].
  split; apply (report_details_and_histogram sample_texts sample_metas);
    reflexivity.
Defined.

Lemma sum_key_missing (k : pystr) (metas : list (dict value))
  (meta : dict value) :
  In meta metas -> dict_get k meta = None ->
  forall acc, sum_key k metas acc = None.
Proof.
  intros Hin Hk. induction metas as [|m r IH]; [destruct Hin|].
  intros acc. simpl. destruct Hin as [-> | Hin].
  - rewrite Hk. reflexivity.
  - destruct (dict_get k m) as [[z| |]|]; auto.
Qed.

Lemma document_details_missing (md : dict (dict value)) (meta : dict value) :
  In meta (dict_values md) -> detail_of meta = None ->
  document_details md = None.
Proof.
  intros Hin Hk. induction md as [|[k m] r IH]; [destruct Hin|].
  simpl in *. destruct Hin as [-> | Hin].
  - unfold detail_of in Hk.
    destruct (dict_get (codes "filename") meta) as [f|]; [|reflexivity].
    destruct (dict_get (codes "word_count") meta) as [[w| |]|];
      try reflexivity.
    destruct (dict_get (codes "page_count") meta) as [[p| |]|];
      try reflexivity.
    destruct (dict_get (codes "source_type") meta) as [[|t|]|];
      try reflexivity; discriminate.
  - rewrite (IH Hin).
    destruct (dict_get (codes "filename") m) as [f|]; [|reflexivity].
    destruct (dict_get (codes "word_count") m) as [[w| |]|];
      try reflexivity.
    destruct (dict_get (codes "page_count") m) as [[p| |]|];
      try reflexivity.
    destruct (dict_get (codes "source_type") m) as [[|t|]|];
      reflexivity.
Qed.

(** X11: the report is not produced (the function raises) as soon as one
    entry of [metadata_dict] lacks one of the keys [filename],
    [word_count], [page_count] or [source_type]. *)
Theorem report_missing_key (texts : dict pystr)
  (metadata_dict : dict (dict value)) (meta : dict value) :
  In meta (dict_values metadata_dict) ->
  has_key (codes "filename") meta = false \/
  has_key (codes "word_count") meta = false \/
  has_key (codes "page_count") meta = false \/
  has_key (codes "source_type") meta = false ->
  generate_extraction_report texts metadata_dict = None.
Proof.
  intros Hin Hk. unfold generate_extraction_report.
  destruct (sum_key (codes "word_count") (dict_values metadata_dict) 0)
    as [tw|] eqn:E1; [|reflexivity].
  destruct (sum_key (codes "page_count") (dict_values metadata_dict) 0)
    as [tp|] eqn:E2; [|reflexivity].
  destruct (count_source_types (dict_values metadata_dict) [])
    as [st|] eqn:E3; [|reflexivity].
  rewrite (document_details_missing metadata_dict meta Hin); [reflexivity|].
  unfold has_key in Hk. unfold detail_of.
  destruct (dict_get (codes "filename") meta) as [f|]; [|reflexivity].
  destruct (dict_get (codes "word_count") meta) as [[w| |]|];
    try reflexivity;
    destruct (dict_get (codes "page_count") meta) as [[p| |]|];
    try reflexivity;
    destruct (dict_get (codes "source_type") meta) as [[|t|]|];
    try reflexivity;
    destruct Hk as [Hk | [Hk | [Hk | Hk]]]; discriminate.
Qed.

Lemma report_missing_key_witness :
  generate_extraction_report sample_texts
    ((codes "d", [(codes "filename", VStr (codes "d.pdf"));
                  (codes "word_count", VInt 7);
                  (codes "source_type", VStr (codes "Unknown"))])
       :: sample_metas) = None.
Proof.
  eapply report_missing_key.
  - left. reflexivity.
  - right. right. left. reflexivity.
Defined.

(** ** The report of a run *)

Lemma process_loop_values (env : world) (total : Z)
  (P : dict value -> Prop) (pdf_files : list pystr) :
  (forall p, stored env p = true ->
     P (fst (extract_metadata env p
               (fst (extract_text env p default_method))))) ->
  forall (i : Z) (ts : dict pystr) (ms : dict (dict value)),
    Forall P (dict_values ms) ->
    Forall P (dict_values
                (snd (fst (process_loop env total i pdf_files ts ms)))).
Proof.
  intros HP. induction pdf_files as [|p rest IH]; intros i ts ms H; [exact H|].
  rewrite process_loop_cons.
  destruct (blank (fst (extract_text env p default_method))) eqn:Eb.
  - apply IH, H.
  - apply IH, dict_set_values_Forall; [|exact H].
    apply HP. unfold stored. rewrite Eb. reflexivity.
Qed.

Lemma process_all_pdfs_same_keys (env : world) :
  dict_keys (fst (fst (process_all_pdfs env)))
  = dict_keys (snd (fst (process_all_pdfs env))).
Proof.
  unfold process_all_pdfs. destruct (glob_pdf env) as [|p0 files].
  - reflexivity.
  - rewrite bind_eq. cbn [fst].
    apply (process_loop_invariant env _ (p0 :: files) 1 [] [] eq_refl
             (Forall_nil _)).
Qed.

Lemma process_all_pdfs_words (env : world) :
  Forall (fun m => 1 <= int_field (codes "word_count") m)
    (dict_values (snd (fst (process_all_pdfs env)))).
Proof.
  unfold process_all_pdfs. destruct (glob_pdf env) as [|p0 files].
  - constructor.
  - rewrite bind_eq. cbn [fst].
    apply process_loop_values; [|constructor].
    intros p Hs. unfold int_field.
    destruct (extract_metadata_fields env p
                (fst (extract_text env p default_method)))
      as [_ [_ [_ [_ [-> _]]]]].
    apply nonblank_has_word. unfold stored in Hs.
    apply negb_true_iff in Hs. exact Hs.
Qed.

Lemma sum_key_value (k : pystr) (metas : list (dict value)) :
  forall acc s,
    sum_key k metas acc = Some s ->
    s = acc + sum_Z (map (int_field k) metas).
Proof.
  induction metas as [|m r IH]; intros acc s; simpl.
  - intros [= <-]. lia.
  - unfold int_field at 1.
    destruct (dict_get k m) as [[z| |]|]; try discriminate.
    intros H. rewrite (IH _ _ H). lia.
Qed.

Lemma sum_Z_lower (f : dict value -> Z) (l : list (dict value)) :
  Forall (fun m => 1 <= f m) l -> len l <= sum_Z (map f l).
Proof.
  unfold len. induction 1 as [|m r Hm _ IH]; simpl List.length; simpl sum_Z;
    lia.
Qed.

(** X12: on the two mappings returned by [process_all_pdfs] the report
    is always produced; its document count is the number of metadata
    entries, the counts of its distribution add up to it, its total
    words is at least its document count, and its average is at least 1
    as soon as one document is stored. *)
Theorem process_all_pdfs_report_figures (env : world) :
  let texts := fst (fst (process_all_pdfs env)) in
  let metadata_dict := snd (fst (process_all_pdfs env)) in
  exists r,
    generate_extraction_report texts metadata_dict = Some r /\
    r_total_docs r = len metadata_dict /\
    sum_Z (map snd (r_distribution r)) = r_total_docs r /\
    r_total_docs r <= r_total_words r /\
    (texts <> [] -> 1 <= r_average_words r).
Proof.
  intros texts metadata_dict.
  destruct (process_all_pdfs_report env) as [r Hr].
  fold texts metadata_dict in Hr. exists r. split; [exact Hr|].
  assert (Hlen : len texts = len metadata_dict).
  { unfold len. f_equal.
    pose proof (f_equal (@List.length _) (process_all_pdfs_same_keys env))
      as H.
    unfold dict_keys in H. rewrite !length_map in H. exact H. }
  pose proof (sum_Z_lower _ _ (process_all_pdfs_words env)) as Hw.
  fold metadata_dict in Hw.
  unfold generate_extraction_report in Hr.
  destruct (sum_key (codes "word_count") (dict_values metadata_dict) 0)
    as [tw|] eqn:E1; [|discriminate].
  destruct (sum_key (codes "page_count") (dict_values metadata_dict) 0)
    as [tp|]; [|discriminate].
  destruct (count_source_types (dict_values metadata_dict) [])
    as [st|] eqn:Es; [|discriminate].
  destruct (document_details metadata_dict) as [ds|]; [|discriminate].
  injection Hr as <-.
  cbn [r_total_docs r_total_words r_average_words r_distribution].
  apply sum_key_value in E1. simpl in E1.
  assert (Hv : len (dict_values metadata_dict) = len metadata_dict)
    by (unfold len, dict_values; rewrite length_map; reflexivity).
  rewrite Hv in Hw.
  split; [exact Hlen|]. split; [|split].
  - rewrite (sum_Z_perm _ _ (sorted_items_perm st)).
    change (map snd st) with (dict_values st).
    rewrite (count_source_types_sum _ _ _ Es), Hv. simpl. lia.
  - lia.
  - intros Hne.
    assert (Hpos : 0 < len texts).
    { destruct texts; [congruence|]. unfold len; simpl List.length; lia. }
    apply Z.gtb_lt in Hpos as Hg. rewrite Hg.
    apply Z.div_le_lower_bound; lia.
Qed.

(** ** The verdict of [validate_jsonl] *)

Lemma validate_loop_verdict (json_loads : pystr -> decoded)
  (lines : list (result pystr)) :
  forall i,
    let run := validate_loop json_loads i lines in
    (In PrintNoProblem (snd run) <->
     exists ls, lines = map Ok ls /\
                Forall (fun l => json_loads l = Decoded) ls) /\
    (List.length (filter is_print (snd run)) <= 1)%nat /\
    (fst run = Ok tt <-> List.length (filter is_print (snd run)) = 1%nat) /\
    (forall j e, In (PrintErrorLine j e) (snd run) ->
       i <= j < i + len lines /\
       exists l, nth_error lines (Z.to_nat (j - i)) = Some (Ok l) /\
                 json_loads l = DecodeError e).
Proof.
  induction lines as [|[l|e0] r IH]; intros i; cbv zeta.
  - cbn [validate_loop fst snd filter is_print List.length].
    split; [split|split; [|split]].
    + intros _. exists []. split; [reflexivity | constructor].
    + intros _. left. reflexivity.
    + lia.
    + tauto.
    + intros j e [H | []]. discriminate.
  - cbn [validate_loop]. destruct (json_loads l) as [|e1|e1] eqn:El.
    + destruct (IH (i + 1)) as [H1 [H2 [H3 H4]]]. cbv zeta in *.
      cbn [fst snd filter is_print]. split; [split|split; [|split]].
      * intros [H | H]; [discriminate|].
        apply H1 in H as [ls [-> Hls]]. exists (l :: ls).
        split; [reflexivity | constructor; assumption].
      * intros [ls [Hl Hls]]. right. apply H1.
        destruct ls as [|l' ls]; [discriminate|]. injection Hl as <- ->.
        inversion Hls; subst. exists ls. auto.
      * exact H2.
      * exact H3.
      * intros j e [H | H]; [discriminate|].
        destruct (H4 j e H) as [Hj [l' [Hn Hl']]].
        unfold len in *; simpl List.length. split; [lia|].
        exists l'. split; [|exact Hl'].
        replace (Z.to_nat (j - i)) with (S (Z.to_nat (j - (i + 1)))) by lia.
        exact Hn.
    + cbn [fst snd filter is_print List.length]. split; [split|split; [|split]].
      * intros [H | [H | []]]; discriminate.
      * intros [ls [Hl Hls]]. destruct ls as [|l' ls]; [discriminate|].
        injection Hl as <- ->. inversion Hls; subst. congruence.
      * lia.
      * tauto.
      * intros j e [H | [H | []]]; [discriminate|].
        injection H as <- <-. unfold len; simpl List.length. split; [lia|].
        rewrite Z.sub_diag. exists l. auto.
    + cbn [fst snd filter is_print List.length]. split; [split|split; [|split]].
      * intros [H | []]; discriminate.
      * intros [ls [Hl Hls]]. destruct ls as [|l' ls]; [discriminate|].
        injection Hl as <- ->. inversion Hls; subst. congruence.
      * lia.
      * split; discriminate.
      * intros j e [H | []]. discriminate.
  - cbn [validate_loop fst snd filter List.length].
    split; [split|split; [|split]].
    + intros [].
    + intros [ls [Hl _]]. destruct ls; discriminate.
    + lia.
    + split; discriminate.
    + intros j e [].
Qed.

(** X13: [validate_jsonl] prints at most one line, and exactly one when
    it returns; it returns nothing printed only by raising.  The line
    printed is the success line exactly when the file opens and every
    line is read and decodes; an error line names the 1-based number of
    a line of the file on which the decoder raises [JSONDecodeError],
    with the decoder's detail for that line. *)
Theorem validate_jsonl_verdict (json_loads : pystr -> decoded)
  (file : result (list (result pystr))) :
  let run := validate_jsonl json_loads file in
  (In PrintNoProblem (snd run) <->
   exists ls, file = Ok (map Ok ls) /\
              Forall (fun l => json_loads l = Decoded) ls) /\
  (List.length (filter is_print (snd run)) <= 1)%nat /\
  (fst run = Ok tt <-> List.length (filter is_print (snd run)) = 1%nat) /\
  (forall j e, In (PrintErrorLine j e) (snd run) ->
     exists lines l,
       file = Ok lines /\ 1 <= j <= len lines /\
       nth_error lines (Z.to_nat (j - 1)) = Some (Ok l) /\
       json_loads l = DecodeError e).
Proof.
  destruct file as [lines|e0]; cbv zeta; cbn [validate_jsonl].
  - destruct (validate_loop_verdict json_loads lines 1) as [H1 [H2 [H3 H4]]].
    cbv zeta in *. split; [split|split; [|split]].
    + intros H. apply H1 in H as [ls [-> Hls]]. exists ls. auto.
    + intros [ls [[= ->] Hls]]. apply H1. exists ls. auto.
    + exact H2.
    + exact H3.
    + intros j e H. destruct (H4 j e H) as [Hj [l [Hn Hl]]].
      exists lines, l. repeat split; auto; lia.
  - cbn [fst snd filter List.length]. split; [split|split; [|split]].
    + intros [].
    + intros [ls [H _]]. discriminate.
    + lia.
    + split; discriminate.
    + intros j e [].
Qed.

Lemma validate_jsonl_verdict_witness :
  In PrintNoProblem
    (snd (validate_jsonl sample_loads
            (Ok (map Ok [codes "[1]"; codes "[2, 3]"])))) /\
  exists lines l,
    Ok [Ok (codes "[1]"); Ok (codes "oops"); Ok (codes "[3]")] = Ok lines /\
    nth_error lines 1 = Some (Ok l) /\
    sample_loads l = DecodeError "Expecting value"%string.
Proof.
  split.
  - apply (validate_jsonl_verdict sample_loads
             (Ok (map Ok [codes "[1]"; codes "[2, 3]"]))).
    exists [codes "[1]"; codes "[2, 3]"]. split; [reflexivity|].
    repeat constructor.
  - destruct (proj2 (proj2 (proj2 (validate_jsonl_verdict sample_loads
                (Ok [Ok (codes "[1]"); Ok (codes "oops");
                     Ok (codes "[3]")]))))
                2 "Expecting value"%string)
      as [lines [l [H1 [_ [H3 H4]]]]].
    + simpl. auto.
    + exists lines, l. auto.
Defined.

Lemma process_all_pdfs_report_figures_witness :
  exists r,
    generate_extraction_report (fst (fst (process_all_pdfs sample_world)))
      (snd (fst (process_all_pdfs sample_world))) = Some r /\
    1 <= r_average_words r.
Proof.
  destruct (process_all_pdfs_report_figures sample_world)
    as [r [E [_ [_ [_ H]]]]].
  exists r. split; [exact E|]. apply H.
  intros Hc. vm_compute in Hc. discriminate.
Defined.

(** ** Files written by [save_results] *)







(** ** [main] *)








(** ** Files with the same stem *)

Lemma process_loop_app (env : world) (total : Z) (a b : list pystr) :
  forall (i : Z) (ts : dict pystr) (ms : dict (dict value)),
    fst (process_loop env total i (a ++ b) ts ms)
    = fst (process_loop env total (i + len a) b
             (fst (fst (process_loop env total i a ts ms)))
             (snd (fst (process_loop env total i a ts ms)))).
Proof.
  induction a as [|p a IH]; intros i ts ms.
  - simpl. unfold len; simpl. rewrite Z.add_0_r. reflexivity.
  - rewrite <- app_comm_cons, !process_loop_cons.
    replace (i + len (p :: a)) with (i + 1 + len a)
      by (unfold len; simpl List.length; lia).
    destruct (blank (fst (extract_text env p default_method))); apply IH.
Qed.

(** A key keeps its values while only files that are not stored, or
    files of another stem, are processed. *)
Lemma process_loop_keeps (env : world) (total : Z)
  (pdf_files : list pystr) (k : pystr) :
  (forall q, In q pdf_files -> stem q = k -> stored env q = false) ->
  forall (i : Z) (ts : dict pystr) (ms : dict (dict value)),
    dict_get k (fst (fst (process_loop env total i pdf_files ts ms)))
    = dict_get k ts /\
    dict_get k (snd (fst (process_loop env total i pdf_files ts ms)))
    = dict_get k ms.
Proof.
  induction pdf_files as [|p rest IH]; intros Hk i ts ms; [auto|].
  rewrite process_loop_cons.
  assert (Hr : forall q, In q rest -> stem q = k -> stored env q = false)
    by (intros q Hq; apply Hk; right; exact Hq).
  destruct (blank (fst (extract_text env p default_method))) eqn:Eb.
  - apply IH, Hr.
  - assert (Hp : k <> stem p).
    { intros ->. specialize (Hk p (or_introl eq_refl) eq_refl).
      unfold stored in Hk. rewrite Eb in Hk. discriminate. }
    destruct (IH Hr (i + 1)
                (dict_set (stem p) (fst (extract_text env p default_method))
                   ts)
                (dict_set (stem p)
                   (fst (extract_metadata env p
                           (fst (extract_text env p default_method)))) ms))
      as [H1 H2].
    rewrite H1, H2, !dict_get_set_other by exact Hp. auto.
Qed.

(** X6: among the listed files that share a stem, the last one whose
    extracted text is not blank wins: the text and the metadata stored
    under the stem are its own, whatever was stored before. *)
Theorem process_all_pdfs_last_wins (env : world) (before after : list pystr)
  (p : pystr) :
  glob_pdf env = before ++ p :: after ->
  stored env p = true ->
  (forall q, In q after -> stem q = stem p -> stored env q = false) ->
  dict_get (stem p) (fst (fst (process_all_pdfs env)))
  = Some (fst (extract_text env p default_method)) /\
  dict_get (stem p) (snd (fst (process_all_pdfs env)))
  = Some (fst (extract_metadata env p
                 (fst (extract_text env p default_method)))).
Proof.
  intros Hg Hs Hafter. unfold process_all_pdfs. rewrite Hg.
  destruct (before ++ p :: after) as [|p0 files] eqn:E;
    [destruct before; discriminate|].
  rewrite bind_eq. cbn [fst]. rewrite <- E.
  rewrite process_loop_app, process_loop_cons.
  unfold stored in Hs. apply negb_true_iff in Hs. rewrite Hs.
  match goal with
  | |- context [process_loop env ?n ?i after ?a ?b] =>
      destruct (process_loop_keeps env n after (stem p) Hafter i a b)
        as [-> ->]
  end.
  rewrite !dict_get_set_same. auto.
Qed.

Lemma process_all_pdfs_last_wins_witness :
  stem (codes ".pdf") = stem (codes ".pdf.pdf") /\
  fst (fst (process_all_pdfs hidden_world))
  = [(codes ".pdf", codes "second")].
Proof.
  split; [reflexivity|].
  pose proof (process_all_pdfs_last_wins hidden_world [codes ".pdf"] []
                (codes ".pdf.pdf") eq_refl eq_refl) as T.
  destruct T as [T _]; [intros q []|].
  reflexivity.
Defined.

(** ** The fallback and the PyPDF2 method *)

(** X16: when the pdfplumber text is blank, [extract_text] with the
    default method returns the very text it returns with the method
    ["pypdf2"]; when it is not blank, no PyPDF2 call is made. *)
Theorem extract_text_fallback_is_pypdf2 (env : world) (pdf_path : pystr) :
  (blank (fst (extract_with_pdfplumber env pdf_path)) = true ->
   fst (extract_text env pdf_path default_method)
   = fst (extract_text env pdf_path (codes "pypdf2"))) /\
  (blank (fst (extract_with_pdfplumber env pdf_path)) = false ->
   fst (extract_text env pdf_path default_method)
   = basic_cleaning (fst (extract_with_pdfplumber env pdf_path)) /\
   count_events is_call_pypdf2
     (snd (extract_text env pdf_path default_method)) = 0%nat).
Proof.
  split; intros Hb.
  - unfold extract_text, default_method.
    rewrite pystr_eqb_refl. change (pystr_eqb (codes "pypdf2")
      (codes "pdfplumber")) with false.
    rewrite !bind_eq. unfold blank in Hb. rewrite Hb.
    cbn [fst snd ret print emit]. reflexivity.
  - split.
    + unfold extract_text, default_method.
      rewrite pystr_eqb_refl, !bind_eq. unfold blank in Hb. rewrite Hb.
      reflexivity.
    + destruct (extract_text_default_counts env pdf_path) as [_ [-> _]].
      rewrite Hb. reflexivity.
Qed.

Lemma extract_text_fallback_is_pypdf2_witness :
  fst (extract_text sample_world (codes "scan.pdf") default_method)
  = fst (extract_text sample_world (codes "scan.pdf") (codes "pypdf2")) /\
  fst (extract_text sample_world (codes "deloitte_wef_report.pdf")
         default_method)
  = codes "Agentic AI".
Proof.
  split.
  - apply (extract_text_fallback_is_pypdf2 sample_world (codes "scan.pdf")).
    reflexivity.
  - apply (extract_text_fallback_is_pypdf2 sample_world
             (codes "deloitte_wef_report.pdf")).
    reflexivity.
Defined.
